(** * LiveWallpaper: playback surface, settings store and control panel

    A shallow embedding of [main.py].  The program is a thin layer of state
    over three collaborators: the file system, the libvlc player and the Qt
    widgets.  The collaborators are not part of the program, so they appear
    here as an environment [Env] of oracles (does a path exist, does this
    libvlc call raise, what does the player report), and every call made to
    libvlc is recorded, in order, in the [calls] log of the [World].

    Python methods mutate [self] and may raise half way through, leaving the
    mutations in place.  They are therefore embedded in a state monad whose
    state survives an exception: [M S A := World * S -> World * S * outcome A].

    Rates are Python floats and are kept as binary64 floats.  The existence
    test [Path(p).exists()] is an oracle with three answers: the file is
    there, it is not, or the test itself raises (a permission or a name that
    the file system refuses).  Of the Qt side
    the model keeps the widgets the handlers write to (button texts and
    enabled flags, the speed selector, the status label), the message boxes
    and the tray notifications.  Window flags, the show event of the
    wallpaper window, the z-order timer, the tray menu and the hotkey
    registration carry no playback or settings state and are left out. *)

From Stdlib Require Import Floats.PrimFloat Floats.SpecFloat Floats.FloatOps Strings.Ascii.
From stdpp Require Import gmap strings list pretty.

(** ** Python values read from the settings file *)

(** What [json.load] can put under a key.  Lists and objects are never
    inspected by the program beyond their truth value, which is all that is
    kept of them.  A JSON integer is read as a Python [int], of any size
    ([VInt]); a JSON real as a Python [float] ([VNum]). *)
Inductive value : Type :=
| VNone
| VBool (b : bool)
| VInt (n : Z)
| VNum (x : float)
| VStr (s : string)
| VCompound (nonempty : bool).

(** The module-level settings dictionary. *)
Abbreviation Config := (gmap string value).

(** Python truthiness, as used by [if default_video and ...]. *)
Definition truthy (v : value) : bool :=
  match v with
  | VNone => false
  | VBool b => b
  | VInt n => negb (n =? 0)%Z
  | VNum x => negb (PrimFloat.eqb x 0%float)
  | VStr s => negb (String.eqb s "")
  | VCompound nonempty => nonempty
  end.

(** [v == s] for a string literal [s]. *)
Definition eq_str (v : value) (s : string) : bool :=
  match v with
  | VStr s' => String.eqb s' s
  | _ => false
  end.

(** [d.get(k, dflt)] *)
Definition dict_get (d : Config) (k : string) (dflt : value) : value :=
  default dflt (d !! k).

(** ** Calls into libvlc, exceptions, outcomes *)

(** The media object built by [vlc_instance.media_new] and [add_option]. *)
Record Media := { mrl : string; options : list string }.

Inductive EngineCall : Type :=
| InstanceNew
| MediaPlayerNew
| MediaNew (path : string)
| MediaAddOption (opt : string)
| SetMedia (m : Media)
| SetRate (r : float)
| VideoSetScale (z : Z)
| VideoSetAspectRatio (ratio : option string)
| Play
| Pause
| Stop
| IsPlaying.

Definition is_play (c : EngineCall) : bool :=
  match c with Play => true | _ => false end.

Definition is_set_rate (c : EngineCall) : bool :=
  match c with SetRate _ => true | _ => false end.

(** [OSError p]: the exception with which the existence test of [p]
    fails when the file system refuses the test itself; it is not a
    [FileNotFoundError]. *)
Inductive exn : Type :=
| FileNotFoundError (path : string)
| OSError (path : string)
| VLCError (c : EngineCall)
| TypeError
| ValueError
| OverflowError.

Inductive outcome (A : Type) : Type :=
| Ret (a : A)
| Raise (e : exn).
Arguments Ret {A} a.
Arguments Raise {A} e.

(** Did the call end in a [FileNotFoundError]? *)
Definition is_file_not_found {A} (o : outcome A) : bool :=
  match o with
  | Raise (FileNotFoundError _) => true
  | _ => false
  end.

(** ** The settings file *)

(** [json.load] yields a dictionary or some other JSON value. *)
Inductive json_doc : Type :=
| JObject (cfg : Config)
| JNotObject.

(** Reading an existing file: [open] raises, [json.load] raises, or a
    document comes back. *)
Inductive read_outcome : Type :=
| ReadFails
| ParseFails
| Parsed (doc : json_doc).

(** The settings file as [CONFIG_PATH.exists()] finds it: not there,
    there, or out of reach (the test itself raises). *)
Inductive ConfigFile : Type :=
| Absent
| Present (r : read_outcome)
| Inaccessible.

Definition CONFIG_PATH : string :=
  "C:\Users\USER\AppData\Local\LiveWallpaper\overlay_wallpaper_config.json".

Definition DEFAULT_CONFIG : Config :=
  <["last_video" := VStr ""]>
  (<["default_video" := VStr ""]>
  (<["speed" := VNum 1%float]>
  (<["aspect_mode" := VStr "fit"]> ∅))).

(** [json.load(f)] inside [with open(...)]. *)
Definition json_load (r : read_outcome) : outcome json_doc :=
  match r with
  | ReadFails => Raise ValueError
  | ParseFails => Raise ValueError
  | Parsed doc => Ret doc
  end.

(** [{**d, **cfg}]: keys of [cfg] win; unpacking a non-mapping raises. *)
Definition dict_merge (d : Config) (doc : json_doc) : outcome Config :=
  match doc with
  | JObject cfg => Ret (cfg ∪ d)
  | JNotObject => Raise TypeError
  end.

(** [CONFIG_PATH.exists()] *)
Definition config_exists (f : ConfigFile) : outcome bool :=
  match f with
  | Absent => Ret false
  | Present _ => Ret true
  | Inaccessible => Raise (OSError CONFIG_PATH)
  end.

(** The body of the [try] of [load_config]. *)
Definition read_config (f : ConfigFile) : outcome Config :=
  match f with
  | Present r =>
      match json_load r with
      | Ret doc => dict_merge DEFAULT_CONFIG doc
      | Raise e => Raise e
      end
  | _ => Raise (FileNotFoundError CONFIG_PATH)
  end.

(** [load_config]: the existence test is outside the [try]. *)
Definition load_config (f : ConfigFile) : outcome Config :=
  match config_exists f with
  | Raise e => Raise e
  | Ret true =>
      match read_config f with
      | Ret cfg => Ret cfg
      | Raise _ => Ret DEFAULT_CONFIG
      end
  | Ret false => Ret DEFAULT_CONFIG
  end.

(** ** The world outside the two objects *)

Inductive Popup : Type :=
| MessageBoxCritical (title text : string)
| TrayMessage (text : string).

Record World := {
  calls : list EngineCall;        (* libvlc calls issued so far, oldest first *)
  console : list string;          (* lines written by print *)
  disk : ConfigFile;              (* the settings file *)
  nwrites : nat;                  (* attempts to write the settings file *)
  popups : list Popup             (* message boxes and tray notifications *)
}.

Definition log_call (c : EngineCall) (w : World) : World :=
  {| calls := calls w ++ [c]; console := console w; disk := disk w;
     nwrites := nwrites w; popups := popups w |}.

Definition log_print (line : string) (w : World) : World :=
  {| calls := calls w; console := console w ++ [line]; disk := disk w;
     nwrites := nwrites w; popups := popups w |}.

Definition log_popup (p : Popup) (w : World) : World :=
  {| calls := calls w; console := console w; disk := disk w;
     nwrites := nwrites w; popups := popups w ++ [p] |}.

(** An attempt to write the settings file: everything is written;
    [open(CONFIG_PATH, "w")] raises and the file is not touched; or
    [json.dump] raises after [open] has emptied the file, and what is left
    is a cut text that no longer parses. *)
Inductive WriteResult : Type :=
| Written
| OpenFails
| DumpFails.

Definition file_after_write (r : WriteResult) (cfg : Config) (old : ConfigFile)
  : ConfigFile :=
  match r with
  | Written => Present (Parsed (JObject cfg))
  | OpenFails => old
  | DumpFails => Present ParseFails
  end.

Definition log_write (r : WriteResult) (cfg : Config) (w : World) : World :=
  {| calls := calls w; console := console w;
     disk := file_after_write r cfg (disk w);
     nwrites := S (nwrites w); popups := popups w |}.

(** The collaborators.  [path_exists p]: the answer of [Path(p).exists()],
    or the exception it raises; [raises h c]: does libvlc raise on call [c]
    after the calls [h]; [reports_playing h]: the answer of
    [player.is_playing()] after the calls [h]; [write_result n]: how the
    [n]-th attempt to write the settings file ends. *)
Record Env := {
  path_exists : string -> outcome bool;
  path_name : string -> string;
  raises : list EngineCall -> EngineCall -> bool;
  reports_playing : list EngineCall -> bool;
  write_result : nat -> WriteResult;
  parse_float : string -> option float;
  str_of_float : float -> string;
  str_of_exn : exn -> string
}.

(** Three environments used to run the model on concrete inputs: one on
    which no call ever raises and whose status follows the last transport
    call, one on which every libvlc call and every write raises, and one
    whose file system refuses every existence test. *)
Fixpoint last_transport (h : list EngineCall) (acc : bool) : bool :=
  match h with
  | [] => acc
  | Play :: h' => last_transport h' true
  | Pause :: h' => last_transport h' false
  | Stop :: h' => last_transport h' false
  | _ :: h' => last_transport h' acc
  end.

Definition last_component (p : string) : string :=
  let fix go (s acc : string) : string :=
    match s with
    | EmptyString => acc
    | String c s' =>
        if (Ascii.eqb c "/"%char || Ascii.eqb c "\"%char)%bool then go s' EmptyString
        else go s' (acc +:+ String c EmptyString)
    end in
  go p EmptyString.

Definition exn_text (e : exn) : string :=
  match e with
  | FileNotFoundError p => p
  | OSError p => p
  | VLCError _ => "vlc"
  | TypeError => "type"
  | ValueError => "value"
  | OverflowError => "overflow"
  end.

Definition sound_env (on_disk : string -> bool) : Env :=
  {| path_exists := fun p => Ret (on_disk p);
     path_name := last_component;
     raises := fun _ _ => false;
     reports_playing := fun h => last_transport h false;
     write_result := fun _ => Written;
     parse_float := fun _ => None;
     str_of_float := fun _ => "?";
     str_of_exn := exn_text |}.

Definition broken_env (on_disk : string -> bool) : Env :=
  {| path_exists := fun p => Ret (on_disk p);
     path_name := last_component;
     raises := fun _ _ => true;
     reports_playing := fun h => last_transport h false;
     write_result := fun _ => OpenFails;
     parse_float := fun _ => None;
     str_of_float := fun _ => "?";
     str_of_exn := exn_text |}.

Definition denied_env : Env :=
  {| path_exists := fun p => Raise (OSError p);
     path_name := last_component;
     raises := fun _ _ => false;
     reports_playing := fun h => last_transport h false;
     write_result := fun _ => Written;
     parse_float := fun _ => None;
     str_of_float := fun _ => "?";
     str_of_exn := exn_text |}.

Definition empty_world : World :=
  {| calls := []; console := []; disk := Absent; nwrites := 0; popups := [] |}.

(** ** The monad *)

Definition M (S A : Type) : Type := World * S -> World * S * outcome A.

Definition ret {S A} (a : A) : M S A := fun ws => (ws, Ret a).

Definition raise {S A} (e : exn) : M S A := fun ws => (ws, Raise e).

Definition bind {S A B} (m : M S A) (k : A -> M S B) : M S B :=
  fun ws =>
    match m ws with
    | (ws', Ret a) => k a ws'
    | (ws', Raise e) => (ws', Raise e)
    end.

(** [try: m  except Exception as e: h e] *)
Definition try_except {S A} (m : M S A) (h : exn -> M S A) : M S A :=
  fun ws =>
    match m ws with
    | (ws', Ret a) => (ws', Ret a)
    | (ws', Raise e) => h e ws'
    end.

Definition gets {S A} (f : S -> A) : M S A := fun ws => (ws, Ret (f ws.2)).

Definition modify {S} (f : S -> S) : M S unit :=
  fun ws => ((ws.1, f ws.2), Ret tt).

Definition effect {S} (f : World -> World) : M S unit :=
  fun ws => ((f ws.1, ws.2), Ret tt).

Definition when {S} (b : bool) (m : M S unit) : M S unit :=
  if b then m else ret tt.

Declare Scope py_scope.
Delimit Scope py_scope with py.
Notation "x <- m ;; k" := (bind m (fun x => k))
  (at level 100, m at next level, k at level 200, right associativity) : py_scope.
Notation "m ;; k" := (bind m (fun _ => k))
  (at level 100, k at level 200, right associativity) : py_scope.
Notation "'pass'" := (fun _ => ret tt) (only parsing) : py_scope.
Open Scope py_scope.

(** ** WallpaperWindow *)

Record WallpaperWindow := {
  media : option Media;
  aspect_mode : value;            (* "fit" or "keep_aspect" *)
  speed : float;
  current_video_path : string;
  _was_playing : bool;
  _manually_paused : bool
}.

Definition set_media (m : option Media) (s : WallpaperWindow) : WallpaperWindow :=
  {| media := m; aspect_mode := aspect_mode s; speed := speed s;
     current_video_path := current_video_path s;
     _was_playing := _was_playing s; _manually_paused := _manually_paused s |}.

Definition set_aspect_mode (a : value) (s : WallpaperWindow) : WallpaperWindow :=
  {| media := media s; aspect_mode := a; speed := speed s;
     current_video_path := current_video_path s;
     _was_playing := _was_playing s; _manually_paused := _manually_paused s |}.

Definition set_speed_field (r : float) (s : WallpaperWindow) : WallpaperWindow :=
  {| media := media s; aspect_mode := aspect_mode s; speed := r;
     current_video_path := current_video_path s;
     _was_playing := _was_playing s; _manually_paused := _manually_paused s |}.

Definition set_current_video_path (p : string) (s : WallpaperWindow) : WallpaperWindow :=
  {| media := media s; aspect_mode := aspect_mode s; speed := speed s;
     current_video_path := p;
     _was_playing := _was_playing s; _manually_paused := _manually_paused s |}.

Definition set_flags (playing paused : bool) (s : WallpaperWindow) : WallpaperWindow :=
  {| media := media s; aspect_mode := aspect_mode s; speed := speed s;
     current_video_path := current_video_path s;
     _was_playing := playing; _manually_paused := paused |}.



(** The surface is Empty while no media is bound; this is the test
    [self.media is None] that guards [play]. *)
Inductive SurfaceState : Type := Empty | Loaded.

Definition surface_state (s : WallpaperWindow) : SurfaceState :=
  match media s with
  | None => Empty
  | Some _ => Loaded
  end.

(** The media object [load] binds for a path. *)
Definition loaded_media (path : string) : Media :=
  {| mrl := path;
     options := ["input-repeat=999999"; "--loop"; ":network-caching=300";
                 ":file-caching=300"; ":live-caching=300"] |}.

(** The libvlc calls by which [load] builds and binds the media, and the
    calls by which a rate and an aspect mode are applied. *)
Definition bind_calls (path : string) : list EngineCall :=
  [MediaNew path;
   MediaAddOption "input-repeat=999999";
   MediaAddOption "--loop";
   MediaAddOption ":network-caching=300";
   MediaAddOption ":file-caching=300";
   MediaAddOption ":live-caching=300";
   SetMedia (loaded_media path)].

Definition rate_calls (r : float) : list EngineCall :=
  if PrimFloat.eqb r 1%float then [] else [SetRate r].

Definition aspect_calls (mode : value) : list EngineCall :=
  if eq_str mode "fit"
  then [VideoSetScale 1; VideoSetAspectRatio None]
  else [VideoSetScale 0; VideoSetAspectRatio (Some "16:9")].

(** The first of the calls [cs], issued in order after the calls [h], on
    which libvlc raises. *)
Fixpoint first_failure (raises : list EngineCall -> EngineCall -> bool)
    (h cs : list EngineCall) : option EngineCall :=
  match cs with
  | [] => None
  | c :: cs' => if raises h c then Some c else first_failure raises (h ++ [c]) cs'
  end.

(** The calls of [cs] that are issued, in order after the calls [h], when
    the sequence is abandoned at the first call on which libvlc raises. *)
Fixpoint issued (raises : list EngineCall -> EngineCall -> bool)
    (h cs : list EngineCall) : list EngineCall :=
  match cs with
  | [] => []
  | c :: cs' => c :: (if raises h c then [] else issued raises (h ++ [c]) cs')
  end.

(** The other mode, as [toggle_aspect] picks it. *)
Definition other_mode (mode : value) : value :=
  if eq_str mode "fit" then VStr "keep_aspect" else VStr "fit".

(** A surface as [__init__] leaves it for the default settings, and a video
    path, used to run the model on concrete inputs. *)
Definition fresh_window : WallpaperWindow :=
  {| media := None; aspect_mode := VStr "fit"; speed := 1%float;
     current_video_path := ""; _was_playing := false; _manually_paused := false |}.

Definition demo_path : string := "C:\Videos\loop.mp4".

(** [float(n)] of a Python [int]: the nearest binary64 float, ties to
    even; an [int] beyond the range of the floats raises. *)
Definition float_of_int (n : Z) : outcome float :=
  match binary_normalize prec emax n 0 false with
  | S754_infinity _ => Raise OverflowError
  | x => Ret (SF2Prim x)
  end.

(** The libvlc calls of [WallpaperWindow.__init__], and a world after a
    list of calls. *)
Definition init_calls : list EngineCall := [InstanceNew; MediaPlayerNew].

Definition log_calls (cs : list EngineCall) (w : World) : World :=
  foldl (fun acc c => log_call c acc) w cs.

(** The supported discrete rates of the speed selector. *)
Definition KNOWN_RATES : list float := [0.5%float; 1%float; 1.5%float; 2%float].

Definition known_rate (r : float) : bool :=
  existsb (PrimFloat.eqb r) KNOWN_RATES.

Section Program.

Variable env : Env.

(** [float(v)] *)
Definition py_float (v : value) : outcome float :=
  match v with
  | VNum x => Ret x
  | VInt n => float_of_int n
  | VBool b => Ret (if b then 1%float else 0%float)
  | VStr s => match parse_float env s with Some x => Ret x | None => Raise ValueError end
  | VNone => Raise TypeError
  | VCompound _ => Raise TypeError
  end.

(** One call into libvlc: logged, then it returns or raises. *)
Definition vlc {S} (c : EngineCall) : M S unit :=
  fun ws =>
    ((log_call c ws.1, ws.2),
     if raises env (calls ws.1) c then Raise (VLCError c) else Ret tt).

Definition of_outcome {S A} (o : outcome A) : M S A := fun ws => (ws, o).

(** The object [WallpaperWindow.__init__] builds from the aspect mode of
    the settings and the converted rate. *)
Definition new_window (mode : value) (r : float) : WallpaperWindow :=
  {| media := None;
     aspect_mode := mode;
     speed := r;
     current_video_path := "";
     _was_playing := false;
     _manually_paused := false |}.

(** [WallpaperWindow.__init__]: the libvlc instance and its player are
    created, then the fields are read from the settings; none of it is
    inside a [try].  The window flags and the timer hold no playback state. *)
Definition WallpaperWindow_init (config : Config) : M unit WallpaperWindow :=
  vlc InstanceNew ;;
  vlc MediaPlayerNew ;;
  let mode := dict_get config "aspect_mode" (VStr "fit") in
  r <- of_outcome (py_float (dict_get config "speed" (VNum 1%float))) ;;
  ret (new_window mode r).

Definition print {S} (line : string) : M S unit := effect (log_print line).

Definition media_new {S} (path : string) : M S Media :=
  vlc (MediaNew path) ;; ret {| mrl := path; options := [] |}.

Definition add_option {S} (m : Media) (opt : string) : M S Media :=
  vlc (MediaAddOption opt) ;; ret {| mrl := mrl m; options := options m ++ [opt] |}.

Definition _apply_aspect_mode : M WallpaperWindow unit :=
  mode <- gets aspect_mode ;;
  if eq_str mode "fit" then
    try_except
      (vlc (VideoSetScale 1) ;;
       vlc (VideoSetAspectRatio None))
      pass
  else
    try_except
      (vlc (VideoSetScale 0) ;;
       vlc (VideoSetAspectRatio (Some "16:9")))
      pass.

Definition load (path : string) : M WallpaperWindow unit :=
  found <- of_outcome (path_exists env path) ;;
  if negb found then raise (FileNotFoundError path) else
  modify (set_current_video_path path) ;;
  m <- media_new path ;;
  m <- add_option m "input-repeat=999999" ;;
  m <- add_option m "--loop" ;;
  m <- add_option m ":network-caching=300" ;;
  m <- add_option m ":file-caching=300" ;;
  m <- add_option m ":live-caching=300" ;;
  modify (set_media (Some m)) ;;
  vlc (SetMedia m) ;;
  try_except
    (r <- gets speed ;;
     when (negb (PrimFloat.eqb r 1%float)) (vlc (SetRate r)))
    pass ;;
  _apply_aspect_mode.

Definition play : M WallpaperWindow unit :=
  m <- gets media ;;
  match m with
  | None => ret tt
  | Some _ =>
      try_except
        (vlc Play ;;
         modify (set_flags true false) ;;
         r <- gets speed ;;
         when (negb (PrimFloat.eqb r 1%float))
           (try_except (vlc (SetRate r)) pass))
        (fun e => print ("Error playing video: " +:+ str_of_exn env e))
  end.

Definition pause : M WallpaperWindow unit :=
  try_except
    (vlc Pause ;;
     modify (set_flags false true))
    (fun e => print ("Error pausing video: " +:+ str_of_exn env e)).

Definition stop : M WallpaperWindow unit :=
  try_except
    (vlc Stop ;;
     modify (set_current_video_path "") ;;
     modify (set_flags false false))
    (fun e => print ("Error stopping video: " +:+ str_of_exn env e)).

Definition set_speed (r : float) : M WallpaperWindow unit :=
  modify (set_speed_field r) ;;
  try_except
    (r' <- gets speed ;; vlc (SetRate r'))
    (fun e => print ("Error setting playback speed: " +:+ str_of_exn env e)).

Definition toggle_aspect : M WallpaperWindow value :=
  mode <- gets aspect_mode ;;
  (if eq_str mode "fit"
   then modify (set_aspect_mode (VStr "keep_aspect"))
   else modify (set_aspect_mode (VStr "fit"))) ;;
  _apply_aspect_mode ;;
  gets aspect_mode.

Definition is_playing : M WallpaperWindow bool :=
  try_except
    (vlc IsPlaying ;;
     fun ws => (ws, Ret (reports_playing env (calls ws.1))))
    (fun _ => ret false).

(** The operations a caller can invoke on the surface, and a run of them in
    which, as in the callers, an exception ends the operation but not the run. *)
Inductive Op : Type :=
| OLoad (path : string)
| OPlay
| OPause
| OStop
| OSetSpeed (r : float)
| OToggleAspect
| OIsPlaying.


Definition run_op (o : Op) (ws : World * WallpaperWindow) : World * WallpaperWindow :=
  match o with
  | OLoad path => (load path ws).1
  | OPlay => (play ws).1
  | OPause => (pause ws).1
  | OStop => (stop ws).1
  | OSetSpeed r => (set_speed r ws).1
  | OToggleAspect => (toggle_aspect ws).1
  | OIsPlaying => (is_playing ws).1
  end.

Definition run_ops (os : list Op) (ws : World * WallpaperWindow) : World * WallpaperWindow :=
  foldl (fun acc o => run_op o acc) ws os.

(** ** ControlPanel *)

Record ControlPanel := {
  wallpaper : WallpaperWindow;
  config : Config;
  btn_playpause_enabled : bool;
  btn_playpause_text : string;
  btn_setdefault_enabled : bool;
  btn_aspect_text : string;
  speed_box_index : Z;
  status : string
}.

Definition set_wallpaper (x : WallpaperWindow) (p : ControlPanel) : ControlPanel :=
  {| wallpaper := x; config := config p;
     btn_playpause_enabled := btn_playpause_enabled p;
     btn_playpause_text := btn_playpause_text p;
     btn_setdefault_enabled := btn_setdefault_enabled p;
     btn_aspect_text := btn_aspect_text p;
     speed_box_index := speed_box_index p; status := status p |}.

Definition set_config_key (k : string) (v : value) (p : ControlPanel) : ControlPanel :=
  {| wallpaper := wallpaper p; config := <[k := v]> (config p);
     btn_playpause_enabled := btn_playpause_enabled p;
     btn_playpause_text := btn_playpause_text p;
     btn_setdefault_enabled := btn_setdefault_enabled p;
     btn_aspect_text := btn_aspect_text p;
     speed_box_index := speed_box_index p; status := status p |}.

Definition set_playpause_enabled (b : bool) (p : ControlPanel) : ControlPanel :=
  {| wallpaper := wallpaper p; config := config p;
     btn_playpause_enabled := b;
     btn_playpause_text := btn_playpause_text p;
     btn_setdefault_enabled := btn_setdefault_enabled p;
     btn_aspect_text := btn_aspect_text p;
     speed_box_index := speed_box_index p; status := status p |}.

Definition set_playpause_text (t : string) (p : ControlPanel) : ControlPanel :=
  {| wallpaper := wallpaper p; config := config p;
     btn_playpause_enabled := btn_playpause_enabled p;
     btn_playpause_text := t;
     btn_setdefault_enabled := btn_setdefault_enabled p;
     btn_aspect_text := btn_aspect_text p;
     speed_box_index := speed_box_index p; status := status p |}.

Definition set_setdefault_enabled (b : bool) (p : ControlPanel) : ControlPanel :=
  {| wallpaper := wallpaper p; config := config p;
     btn_playpause_enabled := btn_playpause_enabled p;
     btn_playpause_text := btn_playpause_text p;
     btn_setdefault_enabled := b;
     btn_aspect_text := btn_aspect_text p;
     speed_box_index := speed_box_index p; status := status p |}.

Definition set_aspect_text (t : string) (p : ControlPanel) : ControlPanel :=
  {| wallpaper := wallpaper p; config := config p;
     btn_playpause_enabled := btn_playpause_enabled p;
     btn_playpause_text := btn_playpause_text p;
     btn_setdefault_enabled := btn_setdefault_enabled p;
     btn_aspect_text := t;
     speed_box_index := speed_box_index p; status := status p |}.

Definition set_speed_box_index (i : Z) (p : ControlPanel) : ControlPanel :=
  {| wallpaper := wallpaper p; config := config p;
     btn_playpause_enabled := btn_playpause_enabled p;
     btn_playpause_text := btn_playpause_text p;
     btn_setdefault_enabled := btn_setdefault_enabled p;
     btn_aspect_text := btn_aspect_text p;
     speed_box_index := i; status := status p |}.

Definition set_status (t : string) (p : ControlPanel) : ControlPanel :=
  {| wallpaper := wallpaper p; config := config p;
     btn_playpause_enabled := btn_playpause_enabled p;
     btn_playpause_text := btn_playpause_text p;
     btn_setdefault_enabled := btn_setdefault_enabled p;
     btn_aspect_text := btn_aspect_text p;
     speed_box_index := speed_box_index p; status := t |}.

(** A method of [self.wallpaper] called from the panel. *)
Definition on_wallpaper {A} (m : M WallpaperWindow A) : M ControlPanel A :=
  fun wp =>
    match m (wp.1, wallpaper wp.2) with
    | ((w', x'), r) => ((w', set_wallpaper x' wp.2), r)
    end.

(** [save_config]: a failure to write is swallowed; what it leaves in the
    file depends on whether [open] or [json.dump] failed. *)
Definition save_config {S} (cfg : Config) : M S unit :=
  fun ws => ((log_write (write_result env (nwrites ws.1)) cfg ws.1, ws.2), Ret tt).

Definition popup {S} (p : Popup) : M S unit := effect (log_popup p).

(** [Path(v)]: only a string makes a path. *)
Definition with_path {S A} (v : value) (k : string -> M S A) : M S A :=
  match v with
  | VStr p => k p
  | _ => raise TypeError
  end.

(** [v and Path(v).exists()] *)
Definition set_and_exists {S} (v : value) : M S bool :=
  if truthy v then with_path v (fun p => of_outcome (path_exists env p)) else ret false.

(** [str(v)] of a mode value. *)
Definition str_of_value (v : value) : string :=
  match v with
  | VStr s => s
  | VInt n => pretty n
  | VNum x => str_of_float env x
  | VBool true => "True"
  | VBool false => "False"
  | VNone => "None"
  | VCompound _ => "..."
  end.

Definition nl : string := String (ascii_of_nat 10) EmptyString.

(** [{0.5: 0, 1.0: 1, 1.5: 2, 2.0: 3}.get(speed, 1)] *)
Definition speed_to_index (r : float) : Z :=
  if PrimFloat.eqb r 0.5%float then 0
  else if PrimFloat.eqb r 1%float then 1
  else if PrimFloat.eqb r 1.5%float then 2
  else if PrimFloat.eqb r 2%float then 3
  else 1.

(** [{0: 0.5, 1: 1.0, 2: 1.5, 3: 2.0}.get(index, 1.0)] *)
Definition index_to_speed (index : Z) : float :=
  if (index =? 0)%Z then 0.5%float
  else if (index =? 1)%Z then 1%float
  else if (index =? 2)%Z then 1.5%float
  else if (index =? 3)%Z then 2%float
  else 1%float.

(** The startup policy at the end of [ControlPanel.__init__]. *)
Definition startup : M ControlPanel unit :=
  cfg <- gets config ;;
  let default_video := dict_get cfg "default_video" (VStr "") in
  use_default <- set_and_exists default_video ;;
  if use_default then
    try_except
      (with_path default_video (fun p =>
         on_wallpaper (load p) ;;
         modify (set_playpause_enabled true) ;;
         modify (set_playpause_text "Pause") ;;
         modify (set_setdefault_enabled true) ;;
         modify (set_status ("Loaded default: " +:+ path_name env p)) ;;
         on_wallpaper play))
      (fun e => print ("Error loading default video: " +:+ str_of_exn env e))
  else
    let last_video := dict_get cfg "last_video" (VStr "") in
    use_last <- set_and_exists last_video ;;
    if use_last then
      try_except
        (with_path last_video (fun p =>
           on_wallpaper (load p) ;;
           modify (set_playpause_enabled true) ;;
           modify (set_playpause_text "Pause") ;;
           modify (set_setdefault_enabled true) ;;
           modify (set_status ("Loaded: " +:+ path_name env p)) ;;
           on_wallpaper play))
        (fun e => print ("Error loading last video: " +:+ str_of_exn env e))
    else ret tt.

(** The widgets as [__init__] creates them, before the selector is
    positioned and the startup policy runs. *)
Definition new_panel (x : WallpaperWindow) (cfg : Config) : ControlPanel :=
  {| wallpaper := x; config := cfg;
     btn_playpause_enabled := false;
     btn_playpause_text := "Play";
     btn_setdefault_enabled := false;
     btn_aspect_text :=
       if eq_str (dict_get cfg "aspect_mode" (VStr "fit")) "fit"
       then "Fit" else "KeepAspect";
     speed_box_index := 0;
     status := "Idle" |}.

Definition ControlPanel_init (x : WallpaperWindow) (cfg : Config) (w : World)
  : World * ControlPanel * outcome unit :=
  (r <- of_outcome (py_float (dict_get cfg "speed" (VNum 1%float))) ;;
   modify (set_speed_box_index (speed_to_index r)) ;;
   startup) (w, new_panel x cfg).

Definition on_load (chosen : string) : M ControlPanel unit :=
  if String.eqb chosen "" then ret tt else
  modify (set_config_key "last_video" (VStr chosen)) ;;
  cfg <- gets config ;;
  save_config cfg ;;
  try_except
    (on_wallpaper (load chosen) ;;
     modify (set_playpause_enabled true) ;;
     modify (set_setdefault_enabled true) ;;
     on_wallpaper play ;;
     modify (set_playpause_text "Pause") ;;
     modify (set_status ("Playing: " +:+ path_name env chosen)))
    (fun e => popup (MessageBoxCritical "Error"
                       ("Failed to load video:" +:+ nl +:+ str_of_exn env e))).

Definition on_playpause : M ControlPanel unit :=
  playing <- on_wallpaper is_playing ;;
  if playing then
    on_wallpaper pause ;;
    modify (set_playpause_text "Play") ;;
    modify (set_status "Paused")
  else
    on_wallpaper play ;;
    modify (set_playpause_text "Pause") ;;
    modify (set_status "Playing").

Definition on_set_default : M ControlPanel unit :=
  current <- gets (fun p => current_video_path (wallpaper p)) ;;
  if negb (String.eqb current "") then
    modify (set_config_key "default_video" (VStr current)) ;;
    cfg <- gets config ;;
    save_config cfg ;;
    modify (set_status ("Default set: " +:+ path_name env current)) ;;
    popup (TrayMessage ("Default video set: " +:+ path_name env current))
  else ret tt.

Definition on_speed_change (index : Z) : M ControlPanel unit :=
  let r := index_to_speed index in
  on_wallpaper (set_speed r) ;;
  modify (set_config_key "speed" (VNum r)) ;;
  cfg <- gets config ;;
  save_config cfg ;;
  modify (set_status ("Speed: " +:+ str_of_float env r +:+ "x")).

Definition on_aspect_toggle : M ControlPanel unit :=
  new_mode <- on_wallpaper toggle_aspect ;;
  modify (set_aspect_text (if eq_str new_mode "fit" then "Fit" else "KeepAspect")) ;;
  modify (set_config_key "aspect_mode" new_mode) ;;
  cfg <- gets config ;;
  save_config cfg ;;
  popup (TrayMessage ("Aspect set to: " +:+ str_of_value new_mode)).

Definition quit_app : M ControlPanel unit :=
  try_except (on_wallpaper stop) pass.

(** The user actions wired to the panel, and a run of them from the
    event loop. *)
Inductive Action : Type :=
| ALoad (chosen : string)
| APlayPause
| ASetDefault
| ASpeedChange (index : Z)
| AAspectToggle
| AQuit.

Definition run_action (a : Action) (wp : World * ControlPanel) : World * ControlPanel :=
  match a with
  | ALoad chosen => (on_load chosen wp).1
  | APlayPause => (on_playpause wp).1
  | ASetDefault => (on_set_default wp).1
  | ASpeedChange index => (on_speed_change index wp).1
  | AAspectToggle => (on_aspect_toggle wp).1
  | AQuit => (quit_app wp).1
  end.

Definition run_actions (acts : list Action) (wp : World * ControlPanel)
  : World * ControlPanel :=
  foldl (fun acc a => run_action a acc) wp acts.

(** The startup policy in the words of the specification: load [path] and
    immediately play it; a failure of the load is caught and reported with
    [print].  [startup_policy] picks the default video when it is set and
    exists, else the last video when it is set and exists, else does
    nothing.  [test_raises path] is the exception of the existence test the
    code makes for a setting [path], if it raises. *)
Definition autoload (loaded_label error_label path : string)
    (wp : World * ControlPanel) : World * ControlPanel * outcome unit :=
  match load path (wp.1, wallpaper wp.2) with
  | ((w1, x1), Ret _) =>
      ((play (w1, x1)).1.1,
       {| wallpaper := (play (w1, x1)).1.2;
          config := config wp.2;
          btn_playpause_enabled := true;
          btn_playpause_text := "Pause";
          btn_setdefault_enabled := true;
          btn_aspect_text := btn_aspect_text wp.2;
          speed_box_index := speed_box_index wp.2;
          status := loaded_label +:+ path_name env path |},
       Ret tt)
  | ((w1, x1), Raise e) =>
      ((log_print (error_label +:+ str_of_exn env e) w1, set_wallpaper x1 wp.2),
       Ret tt)
  end.

Definition usable (path : string) : bool :=
  negb (String.eqb path "") &&
  match path_exists env path with
  | Ret found => found
  | Raise _ => false
  end.

Definition test_raises (path : string) : option exn :=
  if String.eqb path "" then None
  else match path_exists env path with
       | Ret _ => None
       | Raise e => Some e
       end.

Definition startup_policy (default_video last_video : string)
    (wp : World * ControlPanel) : World * ControlPanel * outcome unit :=
  if usable default_video then
    autoload "Loaded default: " "Error loading default video: " default_video wp
  else if usable last_video then
    autoload "Loaded: " "Error loading last video: " last_video wp
  else (wp, Ret tt).

(** [main]: settings, then the surface, then the panel. *)
Definition main (w : World) : World * outcome ControlPanel :=
  match load_config (disk w) with
  | Raise e => (w, Raise e)
  | Ret cfg =>
      match WallpaperWindow_init cfg (w, tt) with
      | ((w1, _), Raise e) => (w1, Raise e)
      | ((w1, _), Ret x) =>
          match ControlPanel_init x cfg w1 with
          | ((w', p), Ret _) => (w', Ret p)
          | ((w', _), Raise e) => (w', Raise e)
          end
      end
  end.

End Program.

(** ** Frames and invariants

    [keeps R m]: whatever [m] does, returning or raising, the state it
    leaves is [R]-related to the state it started from. *)

Definition keeps {S A} (R : relation (World * S)) (m : M S A) : Prop :=
  forall ws, R ws (m ws).1.

(** Three frames: no [Play] call was issued; the settings file was not
    touched; the rate of the surface was not touched. *)

Definition no_play_since {S} (x y : World * S) : Prop :=
  exists cs, calls y.1 = calls x.1 ++ cs /\ forallb (fun c => negb (is_play c)) cs = true.

Definition disk_untouched {S} (x y : World * S) : Prop :=
  disk y.1 = disk x.1 /\ nwrites y.1 = nwrites x.1.

Definition speed_untouched (x y : World * WallpaperWindow) : Prop :=
  speed y.2 = speed x.2.

(** An engine that does not start by itself: a call other than [Play]
    leaves an idle engine idle. *)
Definition starts_on_play_only (env : Env) : Prop :=
  forall h c, is_play c = false -> reports_playing env h = false ->
              reports_playing env (h ++ [c]) = false.

(** Neither the settings file nor the settings of the panel changed. *)
Definition settings_untouched (x y : World * ControlPanel) : Prop :=
  disk y.1 = disk x.1 /\ config y.2 = config x.2.

(** The rate in force, the rate in the settings and the rate in the
    settings file (when the file holds a dictionary) are known rates. *)
Definition known_speed_entry (cfg : Config) : Prop :=
  exists r, cfg !! "speed" = Some (VNum r) /\ known_rate r = true.

Definition rates_known (wp : World * ControlPanel) : Prop :=
  known_rate (speed (wallpaper wp.2)) = true /\
  known_speed_entry (config wp.2) /\
  match disk wp.1 with
  | Present (Parsed (JObject cfg)) => known_speed_entry cfg
  | _ => True
  end.

(** As a frame: the step does not break [rates_known]. *)
Definition rates_stay_known (x y : World * ControlPanel) : Prop :=
  rates_known x -> rates_known y.

(** * Properties *)

(** ** Frame reasoning *)

Section Keeps.

Context {S : Type} (R : relation (World * S)) `{!PreOrder R}.

Lemma keeps_ret {A} (a : A) : keeps R (ret a).
Proof. intros ws. reflexivity. Qed.

Lemma keeps_raise {A} (e : exn) : keeps R (raise (A := A) e).
Proof. intros ws. reflexivity. Qed.

Lemma keeps_gets {A} (f : S -> A) : keeps R (gets f).
Proof. intros ws. reflexivity. Qed.

Lemma keeps_of_outcome {A} (o : outcome A) : keeps R (of_outcome o).
Proof. intros ws. reflexivity. Qed.

Lemma keeps_bind {A B} (m : M S A) (k : A -> M S B) :
  keeps R m -> (forall a, keeps R (k a)) -> keeps R (bind m k).
Proof.
  intros Hm Hk ws. unfold bind. specialize (Hm ws).
  destruct (m ws) as [ws' [a | e]]; simpl in *; [| exact Hm].
  etransitivity; [exact Hm | apply Hk].
Qed.

Lemma keeps_try_except {A} (m : M S A) (h : exn -> M S A) :
  keeps R m -> (forall e, keeps R (h e)) -> keeps R (try_except m h).
Proof.
  intros Hm Hh ws. unfold try_except. specialize (Hm ws).
  destruct (m ws) as [ws' [a | e]]; simpl in *; [exact Hm |].
  etransitivity; [exact Hm | apply Hh].
Qed.

Lemma keeps_when (b : bool) (m : M S unit) : keeps R m -> keeps R (when b m).
Proof. intros Hm. destruct b; simpl; [exact Hm | apply keeps_ret]. Qed.

Lemma keeps_if {A} (b : bool) (m1 m2 : M S A) :
  keeps R m1 -> keeps R m2 -> keeps R (if b then m1 else m2).
Proof. destruct b; auto. Qed.

End Keeps.

#[local] Instance no_play_since_preorder {S} : PreOrder (@no_play_since S).
Proof.
  split.
  - intros x. exists []. rewrite app_nil_r. auto.
  - intros x y z [c1 [E1 F1]] [c2 [E2 F2]]. exists (c1 ++ c2).
    rewrite E2, E1, <- app_assoc, forallb_app, F1, F2. auto.
Qed.

#[local] Instance disk_untouched_preorder {S} : PreOrder (@disk_untouched S).
Proof.
  split.
  - intros x. split; reflexivity.
  - intros x y z [D1 N1] [D2 N2]. split; congruence.
Qed.

#[local] Instance speed_untouched_preorder : PreOrder speed_untouched.
Proof.
  split.
  - intros x. reflexivity.
  - intros x y z H1 H2. unfold speed_untouched in *. congruence.
Qed.

Ltac frame_step :=
  first
    [ apply keeps_ret | apply keeps_raise | apply keeps_gets | apply keeps_of_outcome
    | apply keeps_bind | apply keeps_try_except | apply keeps_when | apply keeps_if ].

Ltac frame leaf :=
  repeat (intros;
          first [ match goal with |- PreOrder _ => apply _ end
                | leaf | frame_step ]).

Section Frames.

Variable env : Env.












End Frames.

Section MoreFrames.

Variable env : Env.

Lemma vlc_disk {S} (c : EngineCall) : keeps (@disk_untouched S) (vlc env c).
Proof. intros ws. split; reflexivity. Qed.

Lemma modify_disk {S} (f : S -> S) : keeps disk_untouched (modify f).
Proof. intros ws. split; reflexivity. Qed.

Lemma print_disk {S} (line : string) : keeps (@disk_untouched S) (print line).
Proof. intros ws. split; reflexivity. Qed.

Ltac disk_leaf := first [ apply modify_disk | apply print_disk | apply vlc_disk ].

Lemma apply_aspect_mode_disk : keeps disk_untouched (_apply_aspect_mode env).
Proof. unfold _apply_aspect_mode. frame disk_leaf. Qed.

Lemma load_disk (path : string) : keeps disk_untouched (load env path).
Proof.
  unfold load, media_new, add_option.
  frame ltac:(first [ disk_leaf | apply apply_aspect_mode_disk ]).
Qed.

Lemma play_disk : keeps disk_untouched (play env).
Proof.
  unfold play. apply keeps_bind; [apply _ | apply keeps_gets; apply _ |].
  intros [m |]; frame disk_leaf.
Qed.

Lemma pause_disk : keeps disk_untouched (pause env).
Proof. unfold pause. frame disk_leaf. Qed.

Lemma stop_disk : keeps disk_untouched (stop env).
Proof. unfold stop. frame disk_leaf. Qed.

Lemma set_speed_disk (r : float) : keeps disk_untouched (set_speed env r).
Proof. unfold set_speed. frame disk_leaf. Qed.

Lemma toggle_aspect_disk : keeps disk_untouched (toggle_aspect env).
Proof.
  unfold toggle_aspect.
  frame ltac:(first [ disk_leaf | apply apply_aspect_mode_disk ]).
Qed.

Lemma is_playing_disk : keeps disk_untouched (is_playing env).
Proof.
  unfold is_playing. frame disk_leaf.
  intros _ ws. split; reflexivity.
Qed.

Lemma vlc_speed (c : EngineCall) : keeps speed_untouched (vlc env c).
Proof. intros ws. reflexivity. Qed.

Lemma print_speed (line : string) : keeps speed_untouched (print line).
Proof. intros ws. reflexivity. Qed.

Lemma modify_speed (f : WallpaperWindow -> WallpaperWindow) :
  (forall s, speed (f s) = speed s) -> keeps speed_untouched (modify f).
Proof. intros Hf ws. apply Hf. Qed.

Ltac speed_leaf :=
  first [ apply print_speed | apply vlc_speed
        | apply modify_speed; reflexivity ].

Lemma apply_aspect_mode_speed : keeps speed_untouched (_apply_aspect_mode env).
Proof. unfold _apply_aspect_mode. frame speed_leaf. Qed.

Lemma load_speed (path : string) : keeps speed_untouched (load env path).
Proof.
  unfold load, media_new, add_option.
  frame ltac:(first [ speed_leaf | apply apply_aspect_mode_speed ]).
Qed.

Lemma play_speed : keeps speed_untouched (play env).
Proof.
  unfold play. apply keeps_bind; [apply _ | apply keeps_gets; apply _ |].
  intros [m |]; frame speed_leaf.
Qed.

Lemma pause_speed : keeps speed_untouched (pause env).
Proof. unfold pause. frame speed_leaf. Qed.

Lemma stop_speed : keeps speed_untouched (stop env).
Proof. unfold stop. frame speed_leaf. Qed.

Lemma toggle_aspect_speed : keeps speed_untouched (toggle_aspect env).
Proof.
  unfold toggle_aspect.
  frame ltac:(first [ speed_leaf | apply apply_aspect_mode_speed ]).
Qed.

Lemma is_playing_speed : keeps speed_untouched (is_playing env).
Proof.
  unfold is_playing. frame speed_leaf.
  intros _ ws. unfold speed_untouched. reflexivity.
Qed.





End MoreFrames.

(** ** Loading *)

(** Unfolding of the monad and of the libvlc primitives. *)
Ltac run_monad :=
  cbv beta iota zeta delta
    [bind try_except when ret raise gets modify effect vlc media_new
     add_option print of_outcome fst snd] in *;
  simpl in *.


Ltac split_ifs :=
  repeat match goal with
    | H : context [if ?b then _ else _] |- _ =>
        destruct b eqn:?; simpl in H; try discriminate H
    | |- context [if ?b then _ else _] =>
        destruct b eqn:?; simpl
    end.

(** [load] as a case analysis on the existence test. *)
Lemma load_tested (env : Env) (path : string) (ws : World * WallpaperWindow) :
  load env path ws
  = match path_exists env path with
    | Ret true =>
        (modify (set_current_video_path path) ;;
         m <- media_new env path ;;
         m <- add_option env m "input-repeat=999999" ;;
         m <- add_option env m "--loop" ;;
         m <- add_option env m ":network-caching=300" ;;
         m <- add_option env m ":file-caching=300" ;;
         m <- add_option env m ":live-caching=300" ;;
         modify (set_media (Some m)) ;;
         vlc env (SetMedia m) ;;
         try_except
           (r <- gets speed ;;
            when (negb (PrimFloat.eqb r 1%float)) (vlc env (SetRate r)))
           pass ;;
         _apply_aspect_mode env) ws
    | Ret false => (ws, Raise (FileNotFoundError path))
    | Raise e => (ws, Raise e)
    end.
Proof.
  unfold load at 1. unfold bind at 1. unfold of_outcome.
  destruct (path_exists env path) as [[|] | e]; reflexivity.
Qed.

(** What a returning [load] leaves in the object: the path, the freshly
    built media, and nothing else changed. *)
Lemma load_returns_object (env : Env) (w w' : World) (s s' : WallpaperWindow)
    (path : string) (a : unit) :
  load env path (w, s) = ((w', s'), Ret a) ->
  path_exists env path = Ret true /\
  s' = set_media (Some (loaded_media path)) (set_current_video_path path s).
Proof.
  intros Hload. rewrite load_tested in Hload.
  destruct (path_exists env path) as [[|] | e] eqn:Hex;
    [| discriminate Hload | discriminate Hload].
  split; [reflexivity |].
  unfold _apply_aspect_mode in Hload. run_monad. split_ifs.
  all: inversion Hload; reflexivity.
Qed.


Lemma last_transport_snoc (h : list EngineCall) (c : EngineCall) (acc : bool) :
  last_transport (h ++ [c]) acc = last_transport [c] (last_transport h acc).
Proof.
  revert acc. induction h as [| c' h IH]; intros acc; [reflexivity |].
  destruct c'; simpl; apply IH.
Qed.

Lemma last_transport_idle (h : list EngineCall) (c : EngineCall) :
  is_play c = false -> last_transport h false = false ->
  last_transport (h ++ [c]) false = false.
Proof.
  intros Hc Hh. rewrite last_transport_snoc, Hh.
  destruct c; try reflexivity. discriminate Hc.
Qed.


(** C1, as stated, fails for a path that names no file and whose existence
    test is refused by the file system: [load] lets the exception of the
    test out, which is not [FileNotFoundError]; the surface is unchanged. *)
Lemma refused_test_is_not_file_not_found :
  let env := denied_env in
  let after := load env demo_path (empty_world, fresh_window) in
  path_exists env demo_path = Raise (OSError demo_path) /\
  after.2 = Raise (OSError demo_path) /\
  is_file_not_found after.2 = false /\
  after.1 = (empty_world, fresh_window).
Proof. vm_compute. repeat split; reflexivity. Qed.


(** The engine of [sound_env] does not start by itself. *)
Lemma sound_env_starts_on_play_only (on_disk : string -> bool) :
  starts_on_play_only (sound_env on_disk).
Proof. intros h c. apply last_transport_idle. Qed.

(** C2, as stated, fails for a load issued while a video plays, on an
    engine whose status follows the last transport call: the second load
    returns and issues no [Play], and [is_playing()] answers true. *)
Lemma load_while_playing_keeps_playing :
  let env := sound_env (fun _ => true) in
  let playing := (play env (load env demo_path (empty_world, fresh_window)).1).1 in
  let again := load env "C:\Videos\other.mp4" playing in
  again.2 = Ret tt /\
  current_video_path again.1.2 = "C:\Videos\other.mp4" /\
  surface_state again.1.2 = Loaded /\
  existsb is_play (drop (length (calls playing.1)) (calls again.1.1)) = false /\
  (is_playing env again.1).2 = Ret true.
Proof. vm_compute. repeat split; reflexivity. Qed.

(** ** Applying rate and aspect mode *)

(** C3 - on an engine that accepts every call, [load] binds the media, sends
    the current rate when it differs from 1.0 and then the current aspect
    settings; [play] on a bound media sends [Play] and then the current rate
    when it differs from 1.0.  At rate 1.0 neither sends a rate. *)
Theorem load_and_play_apply_settings (env : Env) (w w2 : World)
    (s s2 : WallpaperWindow) (path : string) :
  (forall h c, raises env h c = false) ->
  path_exists env path = Ret true ->
  media s2 <> None ->
  calls (load env path (w, s)).1.1
  = calls w ++ bind_calls path ++ rate_calls (speed s) ++ aspect_calls (aspect_mode s) /\
  calls (play env (w2, s2)).1.1 = calls w2 ++ Play :: rate_calls (speed s2).
Proof.
  intros Hok Hex Hbound. split.
  - unfold load, _apply_aspect_mode, rate_calls, aspect_calls, bind_calls.
    rewrite Hex. run_monad. rewrite !Hok. simpl.
    destruct (PrimFloat.eqb (speed s) 1); simpl; rewrite ?Hok; simpl;
      destruct (eq_str (aspect_mode s) "fit"); simpl; rewrite ?Hok; simpl;
      rewrite ?Hok; simpl; rewrite <- ?app_assoc; reflexivity.
  - unfold play, rate_calls. run_monad.
    destruct (media s2) as [m |]; [| congruence]. simpl.
    rewrite !Hok. simpl.
    destruct (PrimFloat.eqb (speed s2) 1); simpl; rewrite ?Hok; simpl;
      rewrite <- ?app_assoc; reflexivity.
Qed.

Lemma load_and_play_apply_settings_witness :
  let env := sound_env (String.eqb demo_path) in
  let fast := set_speed_field 1.5%float fresh_window in
  let bound := set_media (Some (loaded_media demo_path)) fast in
  calls (load env demo_path (empty_world, fast)).1.1
  = calls empty_world ++ bind_calls demo_path ++ rate_calls (speed fast)
      ++ aspect_calls (aspect_mode fast) /\
  calls (play env (empty_world, bound)).1.1
  = calls empty_world ++ Play :: rate_calls (speed bound).
Proof.
  apply (load_and_play_apply_settings (sound_env (String.eqb demo_path))
           empty_world empty_world
           (set_speed_field 1.5%float fresh_window)
           (set_media (Some (loaded_media demo_path))
              (set_speed_field 1.5%float fresh_window))
           demo_path).
  - intros h c. reflexivity.
  - reflexivity.
  - simpl. discriminate.
Defined.

(** C3, as stated, fails at rate 1.0: a surface loaded at the normal rate
    received no rate from [load], and [play] sends [Play] and nothing more. *)
Lemma play_at_normal_rate_sends_no_rate :
  let env := sound_env (String.eqb demo_path) in
  let loaded := (load env demo_path (empty_world, fresh_window)).1 in
  speed loaded.2 = 1%float /\
  media loaded.2 = Some (loaded_media demo_path) /\
  existsb is_set_rate (calls loaded.1) = false /\
  calls (play env loaded).1.1 = calls loaded.1 ++ [Play] /\
  existsb is_set_rate (calls (play env loaded).1.1) = false.
Proof. vm_compute. repeat split; reflexivity. Qed.

(** ** Stop and play *)



(** ** Engine failures *)



(** ** The rate *)

#[local] Instance rates_stay_known_preorder : PreOrder rates_stay_known.
Proof.
  split.
  - intros x H. exact H.
  - intros x y z H1 H2 H. apply H2, H1, H.
Qed.

Lemma index_to_speed_known (index : Z) : known_rate (index_to_speed index) = true.
Proof.
  unfold index_to_speed.
  destruct (index =? 0)%Z; [reflexivity |].
  destruct (index =? 1)%Z; [reflexivity |].
  destruct (index =? 2)%Z; [reflexivity |].
  destruct (index =? 3)%Z; reflexivity.
Qed.

Section PanelFrames.

Variable env : Env.

(** A surface method that leaves the rate and the settings file alone. *)
Lemma on_wallpaper_rates {A} (m : M WallpaperWindow A) :
  keeps speed_untouched m -> keeps disk_untouched m ->
  keeps rates_stay_known (on_wallpaper m).
Proof.
  intros Hspeed Hdisk [w p] [Hrate [Hcfg Hfile]]. unfold on_wallpaper. simpl.
  specialize (Hspeed (w, wallpaper p)). specialize (Hdisk (w, wallpaper p)).
  unfold speed_untouched in Hspeed. destruct Hdisk as [Hdisk _].
  destruct (m (w, wallpaper p)) as [[w' x'] r]. simpl in *.
  repeat split; simpl.
  - rewrite Hspeed. exact Hrate.
  - exact Hcfg.
  - rewrite Hdisk. exact Hfile.
Qed.

Lemma set_speed_object (r : float) (ws : World * WallpaperWindow) :
  (set_speed env r ws).1.2 = set_speed_field r ws.2.
Proof. unfold set_speed. run_monad. split_ifs; reflexivity. Qed.

Lemma on_wallpaper_set_speed_rates (r : float) :
  known_rate r = true -> keeps rates_stay_known (on_wallpaper (set_speed env r)).
Proof.
  intros Hr [w p] [Hrate [Hcfg Hfile]]. unfold on_wallpaper. simpl.
  pose proof (set_speed_object r (w, wallpaper p)) as Hobj.
  destruct (set_speed_disk env r (w, wallpaper p)) as [Hdisk _].
  destruct (set_speed env r (w, wallpaper p)) as [[w' x'] o]. simpl in *.
  repeat split; simpl.
  - rewrite Hobj. exact Hr.
  - exact Hcfg.
  - rewrite Hdisk. exact Hfile.
Qed.

Lemma modify_widget_rates (f : ControlPanel -> ControlPanel) :
  (forall p, wallpaper (f p) = wallpaper p /\ config (f p) = config p) ->
  keeps rates_stay_known (modify f).
Proof.
  intros Hf [w p] [Hrate [Hcfg Hfile]]. destruct (Hf p) as [Hw Hc].
  repeat split; simpl; [rewrite Hw | rewrite Hc |]; assumption.
Qed.

Lemma modify_config_key_rates (k : string) (v : value) :
  k <> "speed" -> keeps rates_stay_known (modify (set_config_key k v)).
Proof.
  intros Hk [w p] [Hrate [[r [Hcfg Hr]] Hfile]].
  repeat split; simpl; [assumption | | assumption].
  exists r. split; [| exact Hr]. rewrite lookup_insert_ne; assumption.
Qed.

Lemma modify_config_speed_rates (r : float) :
  known_rate r = true -> keeps rates_stay_known (modify (set_config_key "speed" (VNum r))).
Proof.
  intros Hr [w p] [Hrate [_ Hfile]].
  repeat split; simpl; [assumption | | assumption].
  exists r. split; [apply lookup_insert_eq | exact Hr].
Qed.

Lemma popup_rates (q : Popup) : keeps rates_stay_known (popup q).
Proof. intros [w p] H. exact H. Qed.

(** [save_config(self.config)]: what reaches the file is the settings. *)
Lemma save_own_config_rates (rest : M ControlPanel unit) :
  keeps rates_stay_known rest ->
  keeps rates_stay_known
    (bind (gets config) (fun cfg => bind (save_config env cfg) (fun _ => rest))).
Proof.
  intros Hrest [w p]. unfold bind, gets, save_config. simpl.
  etransitivity; [| apply Hrest].
  intros [Hrate [Hcfg Hfile]]. repeat split; simpl; [assumption | assumption |].
  unfold file_after_write.
  destruct (write_result env (nwrites w)); first [assumption | exact I].
Qed.

Ltac rates_leaf :=
  first
    [ apply save_own_config_rates
    | apply popup_rates
    | apply modify_widget_rates; intros; split; reflexivity
    | apply modify_config_key_rates; discriminate
    | apply on_wallpaper_rates;
      [ first [ apply load_speed | apply play_speed | apply pause_speed
              | apply stop_speed | apply toggle_aspect_speed | apply is_playing_speed ]
      | first [ apply load_disk | apply play_disk | apply pause_disk
              | apply stop_disk | apply toggle_aspect_disk | apply is_playing_disk ] ] ].

Lemma on_load_rates (chosen : string) : keeps rates_stay_known (on_load env chosen).
Proof. unfold on_load. frame rates_leaf. Qed.

Lemma on_playpause_rates : keeps rates_stay_known (on_playpause env).
Proof. unfold on_playpause. frame rates_leaf. Qed.

Lemma on_set_default_rates : keeps rates_stay_known (on_set_default env).
Proof. unfold on_set_default. frame rates_leaf. Qed.

Lemma on_speed_change_rates (index : Z) :
  keeps rates_stay_known (on_speed_change env index).
Proof.
  unfold on_speed_change.
  frame ltac:(first
    [ apply on_wallpaper_set_speed_rates; apply index_to_speed_known
    | apply modify_config_speed_rates; apply index_to_speed_known
    | rates_leaf ]).
Qed.

Lemma on_aspect_toggle_rates : keeps rates_stay_known (on_aspect_toggle env).
Proof. unfold on_aspect_toggle. frame rates_leaf. Qed.

Lemma quit_app_rates : keeps rates_stay_known (quit_app env).
Proof. unfold quit_app. frame rates_leaf. Qed.

Lemma run_action_rates (a : Action) (wp : World * ControlPanel) :
  rates_known wp -> rates_known (run_action env a wp).
Proof.
  destruct a; simpl.
  - apply on_load_rates.
  - apply on_playpause_rates.
  - apply on_set_default_rates.
  - apply on_speed_change_rates.
  - apply on_aspect_toggle_rates.
  - apply quit_app_rates.
Qed.

End PanelFrames.

Ltac run_panel :=
  cbv beta iota zeta delta
    [bind try_except when ret raise gets modify effect vlc media_new
     add_option print of_outcome popup save_config on_wallpaper fst snd] in *;
  simpl in *.

(** C6 - [set_speed] stores the rate it is given, whatever it is.  The rate
    that the speed selector passes to it, stores in the settings and saves is
    always one of 0.5, 1.0, 1.5, 2.0, so when the rate in force, the rate in
    the settings and the rate in the settings file are known rates they
    remain so through every run of control-panel actions. *)
Theorem known_rates_through_the_panel (env : Env) (acts : list Action)
    (wp : World * ControlPanel) (index : Z) (r : float) :
  rates_known wp ->
  rates_known (run_actions env acts wp) /\
  speed (set_speed env r (wp.1, wallpaper wp.2)).1.2 = r /\
  known_rate (index_to_speed index) = true /\
  speed (wallpaper (on_speed_change env index wp).1.2) = index_to_speed index /\
  config (on_speed_change env index wp).1.2 !! "speed"
  = Some (VNum (index_to_speed index)) /\
  disk (on_speed_change env index wp).1.1
  = file_after_write (write_result env (nwrites wp.1))
      (<["speed" := VNum (index_to_speed index)]> (config wp.2)) (disk wp.1).
Proof.
  intros Hknown. split; [| split; [| split; [| split; [| split]]]].
  - revert wp Hknown. induction acts as [| a acts IH]; intros wp Hknown.
    + exact Hknown.
    + unfold run_actions. simpl. apply IH. apply run_action_rates. exact Hknown.
  - rewrite set_speed_object. reflexivity.
  - apply index_to_speed_known.
  - destruct wp as [w p]. unfold on_speed_change, set_speed. run_panel.
    split_ifs; reflexivity.
  - destruct wp as [w p]. unfold on_speed_change, set_speed. run_panel.
    split_ifs; apply lookup_insert_eq.
  - destruct wp as [w p]. unfold on_speed_change, set_speed. run_panel.
    destruct (raises env (calls w) (SetRate (index_to_speed index))); reflexivity.
Qed.

Lemma known_rates_through_the_panel_witness :
  let env := sound_env (String.eqb demo_path) in
  let wp := (empty_world, new_panel fresh_window DEFAULT_CONFIG) in
  let acts := [ASpeedChange 3; ALoad demo_path; APlayPause; AAspectToggle] in
  rates_known (run_actions env acts wp) /\
  speed (set_speed env 2%float (wp.1, wallpaper wp.2)).1.2 = 2%float /\
  known_rate (index_to_speed 7) = true /\
  speed (wallpaper (on_speed_change env 7 wp).1.2) = index_to_speed 7 /\
  config (on_speed_change env 7 wp).1.2 !! "speed" = Some (VNum (index_to_speed 7)) /\
  disk (on_speed_change env 7 wp).1.1
  = file_after_write (write_result env (nwrites wp.1))
      (<["speed" := VNum (index_to_speed 7)]> (config wp.2)) (disk wp.1).
Proof.
  apply (known_rates_through_the_panel (sound_env (String.eqb demo_path))
           [ASpeedChange 3; ALoad demo_path; APlayPause; AAspectToggle]
           (empty_world, new_panel fresh_window DEFAULT_CONFIG) 7 2%float).
  split; [reflexivity |]. split; [| exact I].
  exists 1%float. split; reflexivity.
Defined.

(** C6, as stated, fails: [set_speed] accepts 3.0, which is not one of the
    supported rates, and sends it to the engine. *)
Lemma set_speed_accepts_unknown_rate :
  let env := sound_env (String.eqb demo_path) in
  let after := (set_speed env 3%float (empty_world, fresh_window)).1 in
  known_rate 3%float = false /\
  PrimFloat.eqb (speed after.2) 3%float = true /\
  known_rate (speed after.2) = false /\
  calls after.1 = [SetRate 3%float].
Proof. vm_compute. repeat split; reflexivity. Qed.

(** ** The aspect mode *)

Lemma apply_aspect_mode_run (env : Env) (w : World) (s : WallpaperWindow) :
  (_apply_aspect_mode env (w, s)).2 = Ret tt /\
  (_apply_aspect_mode env (w, s)).1.2 = s /\
  calls (_apply_aspect_mode env (w, s)).1.1
  = calls w ++ issued (raises env) (calls w) (aspect_calls (aspect_mode s)).
Proof.
  unfold _apply_aspect_mode, aspect_calls. run_monad.
  destruct (eq_str (aspect_mode s) "fit"); simpl; split_ifs;
    rewrite <- ?app_assoc; repeat split; reflexivity.
Qed.

(** C7 - for a surface in mode "fit" or "keep_aspect", [toggle_aspect]
    returns the mode it has just put in force, that mode is the other one,
    and a second call restores the object exactly and reapplies to the
    engine the scale and aspect-ratio settings of the original mode. *)
Theorem toggle_aspect_twice (env : Env) (w : World) (s : WallpaperWindow) :
  aspect_mode s = VStr "fit" \/ aspect_mode s = VStr "keep_aspect" ->
  let once := toggle_aspect env (w, s) in
  let twice := toggle_aspect env once.1 in
  once.2 = Ret (aspect_mode once.1.2) /\
  twice.2 = Ret (aspect_mode twice.1.2) /\
  aspect_mode once.1.2 = other_mode (aspect_mode s) /\
  eq_str (aspect_mode once.1.2) "fit" = negb (eq_str (aspect_mode s) "fit") /\
  twice.1.2 = s /\
  twice.1 = (_apply_aspect_mode env (once.1.1, s)).1 /\
  calls twice.1.1
  = calls once.1.1 ++ issued (raises env) (calls once.1.1) (aspect_calls (aspect_mode s)).
Proof.
  intros Hmode once twice.
  assert (Hagree : twice.1 = (_apply_aspect_mode env (once.1.1, s)).1).
  { subst once twice. destruct s as [m a r p f1 f2]. simpl in Hmode.
    unfold toggle_aspect, _apply_aspect_mode. run_monad.
    destruct Hmode as [-> | ->]; simpl; split_ifs; reflexivity. }
  repeat split.
  - subst once. destruct s as [m a r p f1 f2]. simpl in Hmode.
    unfold toggle_aspect, _apply_aspect_mode. run_monad.
    destruct Hmode as [-> | ->]; simpl; split_ifs; reflexivity.
  - subst once twice. destruct s as [m a r p f1 f2]. simpl in Hmode.
    unfold toggle_aspect, _apply_aspect_mode. run_monad.
    destruct Hmode as [-> | ->]; simpl; split_ifs; reflexivity.
  - subst once. destruct s as [m a r p f1 f2]. simpl in Hmode.
    unfold toggle_aspect, _apply_aspect_mode, other_mode. run_monad.
    destruct Hmode as [-> | ->]; simpl; split_ifs; reflexivity.
  - subst once. destruct s as [m a r p f1 f2]. simpl in Hmode.
    unfold toggle_aspect, _apply_aspect_mode. run_monad.
    destruct Hmode as [-> | ->]; simpl; split_ifs; reflexivity.
  - rewrite Hagree. apply apply_aspect_mode_run.
  - exact Hagree.
  - rewrite Hagree. apply apply_aspect_mode_run.
Qed.

Lemma toggle_aspect_twice_witness :
  let env := sound_env (String.eqb demo_path) in
  let once := toggle_aspect env (empty_world, fresh_window) in
  let twice := toggle_aspect env once.1 in
  once.2 = Ret (aspect_mode once.1.2) /\
  twice.2 = Ret (aspect_mode twice.1.2) /\
  aspect_mode once.1.2 = other_mode (aspect_mode fresh_window) /\
  eq_str (aspect_mode once.1.2) "fit" = negb (eq_str (aspect_mode fresh_window) "fit") /\
  twice.1.2 = fresh_window /\
  twice.1 = (_apply_aspect_mode env (once.1.1, fresh_window)).1 /\
  calls twice.1.1
  = calls once.1.1
    ++ issued (raises env) (calls once.1.1) (aspect_calls (aspect_mode fresh_window)).
Proof.
  apply (toggle_aspect_twice (sound_env (String.eqb demo_path)) empty_world
           fresh_window).
  left. reflexivity.
Defined.

(** ** The settings file *)


(** C8, as stated, fails when the settings file is out of reach: the
    existence test is outside the [try], its exception leaves
    [load_config], and [main] ends there, before any window is built. *)
Lemma unreachable_settings_file_is_fatal :
  let env := sound_env (String.eqb demo_path) in
  let w := {| calls := []; console := []; disk := Inaccessible; nwrites := 0;
              popups := [] |} in
  load_config (disk w) = Raise (OSError CONFIG_PATH) /\
  main env w = (w, Raise (OSError CONFIG_PATH)).
Proof. vm_compute. split; reflexivity. Qed.

(** ** Startup *)

Lemma play_returns (env : Env) (ws : World * WallpaperWindow) :
  (play env ws).2 = Ret tt.
Proof.
  destruct ws as [w s]. unfold play. run_monad.
  destruct (media s); [| reflexivity]. simpl. split_ifs; reflexivity.
Qed.

(** Case analysis on the outcome of the next [load] or [play]. *)
Ltac run_load_play :=
  repeat match goal with
    | |- context [load ?e ?q ?x] =>
        destruct (load e q x) as [[? ?] [? | ?]]; simpl
    | |- context [play ?e ?x] =>
        let H := fresh "Hplay" in
        pose proof (play_returns e x) as H;
        destruct (play e x) as [[? ?] ?]; simpl in *; subst
    end.

(** [startup] on string settings, as a case analysis on the existence
    tests it makes. *)
Lemma startup_tested (env : Env) (w : World) (p : ControlPanel) (d l : string) :
  dict_get (config p) "default_video" (VStr "") = VStr d ->
  dict_get (config p) "last_video" (VStr "") = VStr l ->
  startup env (w, p)
  = match test_raises env d with
    | Some e => ((w, p), Raise e)
    | None =>
        if usable env d then startup_policy env d l (w, p)
        else match test_raises env l with
             | Some e => ((w, p), Raise e)
             | None => startup_policy env d l (w, p)
             end
    end /\
  (startup_policy env d l (w, p)).2 = Ret tt.
Proof.
  intros Hd Hl. split.
  - unfold startup, startup_policy, usable, test_raises, autoload, set_and_exists,
      with_path.
    run_panel. rewrite Hd, Hl. simpl.
    destruct (String.eqb d ""); simpl;
      destruct (path_exists env d) as [[|] | e1]; simpl;
      destruct (String.eqb l ""); simpl;
      try destruct (path_exists env l) as [[|] | e2]; simpl;
      run_load_play; reflexivity.
  - unfold startup_policy, autoload.
    destruct (usable env d); [| destruct (usable env l)].
    + destruct (load env d _) as [[w1 x1] [a | e]]; reflexivity.
    + destruct (load env l _) as [[w1 x1] [a | e]]; reflexivity.
    + reflexivity.
Qed.




(** The same configuration on an engine that accepts every call: the video
    is loaded and played and the status names the file. *)
Example startup_plays_default_video :
  let env := sound_env (String.eqb demo_path) in
  let cfg := <["default_video" := VStr demo_path]> DEFAULT_CONFIG in
  let started := ControlPanel_init env fresh_window cfg empty_world in
  started.2 = Ret tt /\
  status started.1.2 = "Loaded default: loop.mp4" /\
  btn_playpause_text started.1.2 = "Pause" /\
  calls started.1.1
  = bind_calls demo_path ++ aspect_calls (VStr "fit") ++ [Play] /\
  is_playing env (started.1.1, wallpaper started.1.2)
  = ((log_call IsPlaying started.1.1, wallpaper started.1.2), Ret true).
Proof. vm_compute. repeat split; reflexivity. Qed.

(** ** The last video *)

#[local] Instance settings_untouched_preorder : PreOrder settings_untouched.
Proof.
  split.
  - intros x. split; reflexivity.
  - intros x y z [D1 C1] [D2 C2]. split; congruence.
Qed.

Lemma on_wallpaper_settings {A} (m : M WallpaperWindow A) :
  keeps disk_untouched m -> keeps settings_untouched (on_wallpaper m).
Proof.
  intros Hdisk [w p]. unfold on_wallpaper. simpl.
  destruct (Hdisk (w, wallpaper p)) as [Hfile _].
  destruct (m (w, wallpaper p)) as [[w' x'] r]. split; [exact Hfile | reflexivity].
Qed.

Lemma modify_widget_settings (f : ControlPanel -> ControlPanel) :
  (forall p, config (f p) = config p) -> keeps settings_untouched (modify f).
Proof. intros Hf [w p]. split; [reflexivity | apply Hf]. Qed.

Lemma popup_settings (q : Popup) : keeps settings_untouched (popup q).
Proof. intros [w p]. split; reflexivity. Qed.

(** The part of [on_load] that follows [save_config]. *)
Lemma on_load_tail (env : Env) (chosen : string) (wp : World * ControlPanel) :
  let tail :=
    try_except
      (on_wallpaper (load env chosen) ;;
       modify (set_playpause_enabled true) ;;
       modify (set_setdefault_enabled true) ;;
       on_wallpaper (play env) ;;
       modify (set_playpause_text "Pause") ;;
       modify (set_status ("Playing: " +:+ path_name env chosen)))
      (fun e => popup (MessageBoxCritical "Error"
                         ("Failed to load video:" +:+ nl +:+ str_of_exn env e))) in
  settings_untouched wp (tail wp).1 /\ (tail wp).2 = Ret tt.
Proof.
  intros tail. split.
  - subst tail. revert wp.
    change (keeps settings_untouched
      (try_except
         (on_wallpaper (load env chosen) ;;
          modify (set_playpause_enabled true) ;;
          modify (set_setdefault_enabled true) ;;
          on_wallpaper (play env) ;;
          modify (set_playpause_text "Pause") ;;
          modify (set_status ("Playing: " +:+ path_name env chosen)))
         (fun e => popup (MessageBoxCritical "Error"
                            ("Failed to load video:" +:+ nl +:+ str_of_exn env e))))).
    frame ltac:(first
      [ apply popup_settings
      | apply modify_widget_settings; reflexivity
      | apply on_wallpaper_settings; first [ apply load_disk | apply play_disk ] ]).
  - subst tail. destruct wp as [w p]. run_panel.
    destruct (load env chosen (w, wallpaper p)) as [[w1 x1] [a | e]]; simpl;
      [| reflexivity].
    pose proof (play_returns env (w1, x1)) as Hplay.
    destruct (play env (w1, x1)) as [[w2 x2] o]. simpl in *. subst o. reflexivity.
Qed.

(** C10 - for every chosen path, [on_load] first records the path as
    "last_video" in the settings and writes the settings to the file (when
    the write succeeds), and only then loads; whatever the load does, the
    settings and the file keep the chosen path and [on_load] returns.  A
    cancelled dialog changes nothing. *)
Theorem on_load_records_path_before_loading (env : Env) (w : World)
    (p : ControlPanel) (chosen : string) :
  chosen <> "" ->
  (on_load env chosen (w, p)).2 = Ret tt /\
  config (on_load env chosen (w, p)).1.2 = <["last_video" := VStr chosen]> (config p) /\
  disk (on_load env chosen (w, p)).1.1
  = file_after_write (write_result env (nwrites w))
      (<["last_video" := VStr chosen]> (config p)) (disk w) /\
  on_load env "" (w, p) = ((w, p), Ret tt).
Proof.
  intros Hchosen.
  apply String.eqb_neq in Hchosen.
  split; [| split; [| split]]; [| | | reflexivity].
  all: unfold on_load; rewrite Hchosen; set (t := try_except _ _);
    unfold bind, modify, gets, save_config; simpl;
    match goal with
    | |- context [t ?x] =>
        destruct (on_load_tail env chosen x) as [[Hfile Hcfg] Hret]
    end;
    fold t in Hfile, Hcfg, Hret.
  - exact Hret.
  - rewrite Hcfg. reflexivity.
  - rewrite Hfile. reflexivity.
Qed.

Lemma on_load_records_path_before_loading_witness :
  let env := sound_env (String.eqb demo_path) in
  let w := empty_world in
  let p := new_panel fresh_window DEFAULT_CONFIG in
  (on_load env demo_path (w, p)).2 = Ret tt /\
  config (on_load env demo_path (w, p)).1.2
  = <["last_video" := VStr demo_path]> (config p) /\
  disk (on_load env demo_path (w, p)).1.1
  = file_after_write (write_result env (nwrites w))
      (<["last_video" := VStr demo_path]> (config p)) (disk w) /\
  on_load env "" (w, p) = ((w, p), Ret tt).
Proof.
  apply (on_load_records_path_before_loading (sound_env (String.eqb demo_path))
           empty_world (new_panel fresh_window DEFAULT_CONFIG) demo_path).
  discriminate.
Defined.

(** C10, as stated, fails when the chosen file is gone by the time it is
    loaded: [load] raises, the error box is shown, nothing is bound, and the
    settings and the settings file already name the path. *)
Lemma failed_load_is_already_persisted :
  let env := sound_env (fun _ => false) in
  let wp := (empty_world, new_panel fresh_window DEFAULT_CONFIG) in
  let after := (on_load env demo_path wp).1 in
  config wp.2 !! "last_video" = Some (VStr "") /\
  (load env demo_path (wp.1, wallpaper wp.2)).2 = Raise (FileNotFoundError demo_path) /\
  popups after.1
  = [MessageBoxCritical "Error" ("Failed to load video:" +:+ nl +:+ demo_path)] /\
  media (wallpaper after.2) = None /\
  calls after.1 = [] /\
  config after.2 !! "last_video" = Some (VStr demo_path) /\
  (exists cfg, load_config (disk after.1) = Ret cfg /\
               cfg !! "last_video" = Some (VStr demo_path)).
Proof.
  vm_compute. do 6 (split; [reflexivity |]).
  eexists. split; reflexivity.
Qed.

(** * Further properties of the code *)

(** ** What each surface operation leaves in the object *)

(** The libvlc calls by which [load] builds the media, before it stores
    and binds it. *)
Definition create_calls (path : string) : list EngineCall :=
  [MediaNew path;
   MediaAddOption "input-repeat=999999";
   MediaAddOption "--loop";
   MediaAddOption ":network-caching=300";
   MediaAddOption ":file-caching=300";
   MediaAddOption ":live-caching=300"].

(** The object an operation leaves, as a function of the object it found
    and of what libvlc did. *)
Definition object_after (env : Env) (o : Op) (w : World) (s : WallpaperWindow)
  : WallpaperWindow :=
  match o with
  | OLoad path =>
      match path_exists env path with
      | Ret true =>
          match first_failure (raises env) (calls w) (create_calls path) with
          | Some _ => set_current_video_path path s
          | None => set_media (Some (loaded_media path)) (set_current_video_path path s)
          end
      | _ => s
      end
  | OPlay =>
      match media s with
      | None => s
      | Some _ => if raises env (calls w) Play then s else set_flags true false s
      end
  | OPause => if raises env (calls w) Pause then s else set_flags false true s
  | OStop =>
      if raises env (calls w) Stop then s
      else set_flags false false (set_current_video_path "" s)
  | OSetSpeed r => set_speed_field r s
  | OToggleAspect => set_aspect_mode (other_mode (aspect_mode s)) s
  | OIsPlaying => s
  end.

(** Both flags are never set together and the playing flag needs a bound
    media; a bound media is one built by [load]; the mode is one of the two
    the program writes. *)
Definition flags_sound (s : WallpaperWindow) : Prop :=
  _was_playing s && _manually_paused s = false /\
  (_was_playing s = true -> media s <> None).

Definition media_from_load (s : WallpaperWindow) : Prop :=
  media s = None \/ exists path, media s = Some (loaded_media path).

Definition canonical_mode (v : value) : bool :=
  eq_str v "fit" || eq_str v "keep_aspect".

Definition is_otoggle (o : Op) : bool :=
  match o with OToggleAspect => true | _ => false end.

(** The rate an operation assigns, if it assigns one. *)
Definition speed_after_op (o : Op) : option float :=
  match o with OSetSpeed r => Some r | _ => None end.

Lemma run_op_object (env : Env) (o : Op) (w : World) (s : WallpaperWindow) :
  (run_op env o (w, s)).2 = object_after env o w s.
Proof.
  destruct o; simpl.
  - rewrite load_tested. unfold _apply_aspect_mode, loaded_media.
    destruct (path_exists env path) as [[|] | e]; [| reflexivity | reflexivity].
    run_monad. split_ifs; reflexivity.
  - unfold play. run_monad. destruct (media s); [| reflexivity]. simpl.
    split_ifs; reflexivity.
  - unfold pause. run_monad. split_ifs; reflexivity.
  - unfold stop. run_monad. split_ifs; reflexivity.
  - unfold set_speed. run_monad. split_ifs; reflexivity.
  - unfold toggle_aspect, _apply_aspect_mode, other_mode. run_monad.
    destruct (eq_str (aspect_mode s) "fit"); simpl; split_ifs; reflexivity.
  - unfold is_playing. run_monad. split_ifs; reflexivity.
Qed.

Lemma run_ops_cons (env : Env) (o : Op) (os : list Op) (ws : World * WallpaperWindow) :
  run_ops env (o :: os) ws = run_ops env os (run_op env o ws).
Proof. reflexivity. Qed.

(** A property of the object kept by every operation is kept by every run. *)
Lemma run_ops_invariant (env : Env) (P : WallpaperWindow -> Prop) :
  (forall o w s, P s -> P (object_after env o w s)) ->
  forall os ws, P ws.2 -> P (run_ops env os ws).2.
Proof.
  intros Hstep os. induction os as [| o os IH]; intros [w s] HP; [exact HP |].
  rewrite run_ops_cons. apply IH.
  destruct (run_op env o (w, s)) as [w' s'] eqn:Hrun.
  replace s' with (run_op env o (w, s)).2 by (rewrite Hrun; reflexivity).
  rewrite run_op_object. apply Hstep. exact HP.
Qed.

(** Every operation changes the object by a chain of five kinds of field
    updates, so a property kept by each of them is kept by every operation. *)
Lemma object_after_ind (env : Env) (P : WallpaperWindow -> Prop) :
  (forall p x, P x -> P (set_current_video_path p x)) ->
  (forall p x, P x -> P (set_media (Some (loaded_media p)) x)) ->
  (forall a b x, a && b = false -> P x -> P (set_flags a b x)) ->
  (forall r x, P x -> P (set_speed_field r x)) ->
  (forall x, P x -> P (set_aspect_mode (other_mode (aspect_mode x)) x)) ->
  forall o w s, P s -> P (object_after env o w s).
Proof.
  intros Hpath Hmedia Hflags Hspeed Hmode o w s Hs.
  destruct o; unfold object_after.
  - destruct (path_exists env path) as [[|] | e]; [| exact Hs | exact Hs].
    destruct (first_failure (raises env) (calls w) (create_calls path)).
    + apply Hpath, Hs.
    + apply Hmedia, Hpath, Hs.
  - destruct (media s); [| exact Hs].
    destruct (raises env (calls w) Play); [exact Hs |].
    apply Hflags; [reflexivity | exact Hs].
  - destruct (raises env (calls w) Pause); [exact Hs |].
    apply Hflags; [reflexivity | exact Hs].
  - destruct (raises env (calls w) Stop); [exact Hs |].
    apply Hflags; [reflexivity |]. apply Hpath, Hs.
  - apply Hspeed, Hs.
  - apply Hmode, Hs.
  - exact Hs.
Qed.

(** X1 - once a media is bound, no operation of the surface unbinds it: a
    Loaded surface stays Loaded through every run of operations, [stop]
    included. *)
Theorem media_stays_bound (env : Env) (os : list Op) (w : World) (s : WallpaperWindow) :
  surface_state s = Loaded ->
  surface_state (run_ops env os (w, s)).2 = Loaded.
Proof.
  intros Hbound.
  apply (run_ops_invariant env (fun x => surface_state x = Loaded)); [| exact Hbound].
  apply (object_after_ind env (fun x => surface_state x = Loaded));
    intros; first [assumption | reflexivity].
Qed.

Lemma media_stays_bound_witness :
  let env := sound_env (String.eqb demo_path) in
  let loaded := (load env demo_path (empty_world, fresh_window)).1 in
  surface_state (run_ops env [OStop; OPause; OSetSpeed 2%float; OStop] loaded).2 = Loaded.
Proof.
  apply (media_stays_bound (sound_env (String.eqb demo_path))
           [OStop; OPause; OSetSpeed 2%float; OStop]).
  reflexivity.
Defined.

(** X2 - a bound media is always one that [load] built: it carries the two
    looping options and the three caching options, whatever operations ran
    and whichever of them failed. *)
Theorem bound_media_is_looping (env : Env) (os : list Op) (w : World)
    (s : WallpaperWindow) :
  media_from_load s ->
  media_from_load (run_ops env os (w, s)).2.
Proof.
  intros Hs. apply (run_ops_invariant env media_from_load); [| exact Hs].
  apply (object_after_ind env media_from_load); intros; try assumption.
  right. exists p. reflexivity.
Qed.

Lemma bound_media_is_looping_witness :
  let env := sound_env (String.eqb demo_path) in
  media_from_load
    (run_ops env [OLoad demo_path; OPlay; OLoad "missing.mp4"; OStop]
       (empty_world, fresh_window)).2.
Proof.
  apply (bound_media_is_looping (sound_env (String.eqb demo_path))
           [OLoad demo_path; OPlay; OLoad "missing.mp4"; OStop]).
  left. reflexivity.
Defined.

(** X3 - the flags [_was_playing] and [_manually_paused] are never set
    together, and [_was_playing] is set only on a surface with a bound
    media: [play] writes the flags only past its media guard, [pause] and
    [stop] clear [_was_playing], and nothing unbinds the media. *)
Theorem playing_flag_is_sound (env : Env) (os : list Op) (w : World)
    (s : WallpaperWindow) :
  flags_sound s ->
  flags_sound (run_ops env os (w, s)).2.
Proof.
  intros Hs. apply (run_ops_invariant env flags_sound); [| exact Hs].
  clear. intros o w s [Hex Hbound]. unfold flags_sound, object_after.
  destruct o.
  - destruct (path_exists env path) as [[|] | e];
      [| split; assumption | split; assumption].
    destruct (first_failure _ _ _); simpl; split;
      first [assumption | congruence].
  - destruct (media s) eqn:Hm;
      [| split; [assumption | intros Ht; specialize (Hbound Ht); congruence]].
    destruct (raises env (calls w) Play);
      [split; [assumption | congruence] |].
    simpl. rewrite Hm. split; [reflexivity | congruence].
  - destruct (raises env (calls w) Pause); [split; assumption |].
    simpl. split; [reflexivity | congruence].
  - destruct (raises env (calls w) Stop); [split; assumption |].
    simpl. split; [reflexivity | congruence].
  - simpl. split; assumption.
  - simpl. split; assumption.
  - split; assumption.
Qed.

Lemma playing_flag_is_sound_witness :
  let env := sound_env (String.eqb demo_path) in
  flags_sound
    (run_ops env [OPlay; OLoad demo_path; OPlay; OPause; OPlay; OStop]
       (empty_world, fresh_window)).2.
Proof.
  apply (playing_flag_is_sound (sound_env (String.eqb demo_path))
           [OPlay; OLoad demo_path; OPlay; OPause; OPlay; OStop]).
  split; [reflexivity | discriminate].
Defined.

Lemma other_mode_canonical (v : value) : canonical_mode (other_mode v) = true.
Proof. unfold other_mode. destruct (eq_str v "fit"); reflexivity. Qed.

Lemma canonical_mode_kept (env : Env) (os : list Op) (ws : World * WallpaperWindow) :
  canonical_mode (aspect_mode ws.2) = true ->
  canonical_mode (aspect_mode (run_ops env os ws).2) = true.
Proof.
  apply (run_ops_invariant env (fun x => canonical_mode (aspect_mode x) = true)).
  apply (object_after_ind env (fun x => canonical_mode (aspect_mode x) = true));
    intros; try assumption.
  apply other_mode_canonical.
Qed.

(** X4 - [toggle_aspect] normalises the mode: whatever value the settings
    file put in [aspect_mode], from the first toggle of a run on the mode is
    "fit" or "keep_aspect", and a mode that is one of the two stays so. *)
Theorem toggle_normalises_mode (env : Env) (os : list Op) (w : World)
    (s : WallpaperWindow) :
  existsb is_otoggle os || canonical_mode (aspect_mode s) = true ->
  canonical_mode (aspect_mode (run_ops env os (w, s)).2) = true.
Proof.
  revert w s. induction os as [| o os IH]; intros w s Hs.
  - exact Hs.
  - rewrite run_ops_cons.
    destruct (run_op env o (w, s)) as [w' s'] eqn:Hrun.
    assert (Hs' : s' = object_after env o w s).
    { rewrite <- run_op_object, Hrun. reflexivity. }
    simpl in Hs. destruct (is_otoggle o) eqn:Ho.
    + apply (canonical_mode_kept env os (w', s')). simpl. subst s'.
      destruct o; try discriminate Ho. simpl. apply other_mode_canonical.
    + simpl in Hs. apply IH.
      destruct (existsb is_otoggle os); [reflexivity |]. simpl in *.
      subst s'. revert Hs.
      apply (object_after_ind env (fun x => canonical_mode (aspect_mode x) = true));
        intros; try assumption.
      apply other_mode_canonical.
Qed.

Lemma toggle_normalises_mode_witness :
  let env := sound_env (String.eqb demo_path) in
  let odd := set_aspect_mode (VStr "stretch") fresh_window in
  canonical_mode (aspect_mode odd) = false /\
  canonical_mode
    (aspect_mode (run_ops env [OPlay; OToggleAspect; OStop] (empty_world, odd)).2) = true.
Proof.
  split; [reflexivity |].
  apply (toggle_normalises_mode (sound_env (String.eqb demo_path))
           [OPlay; OToggleAspect; OStop]).
  reflexivity.
Defined.

(** ** What each handler leaves in the settings *)

(** The handler behind an action, with its outcome. *)
Definition handle (env : Env) (a : Action) : M ControlPanel unit :=
  match a with
  | ALoad chosen => on_load env chosen
  | APlayPause => on_playpause env
  | ASetDefault => on_set_default env
  | ASpeedChange index => on_speed_change env index
  | AAspectToggle => on_aspect_toggle env
  | AQuit => quit_app env
  end.

(** The settings key a handler assigns, with its value, if any. *)
Definition stored (a : Action) (p : ControlPanel) : option (string * value) :=
  match a with
  | ALoad chosen =>
      if String.eqb chosen "" then None else Some ("last_video", VStr chosen)
  | APlayPause => None
  | ASetDefault =>
      if String.eqb (current_video_path (wallpaper p)) "" then None
      else Some ("default_video", VStr (current_video_path (wallpaper p)))
  | ASpeedChange index => Some ("speed", VNum (index_to_speed index))
  | AAspectToggle => Some ("aspect_mode", other_mode (aspect_mode (wallpaper p)))
  | AQuit => None
  end.

Definition settings_after (a : Action) (p : ControlPanel) : Config :=
  match stored a p with
  | Some (k, v) => <[k := v]> (config p)
  | None => config p
  end.

Definition file_after (env : Env) (a : Action) (w : World) (p : ControlPanel)
  : ConfigFile :=
  match stored a p with
  | Some _ => file_after_write (write_result env (nwrites w)) (settings_after a p) (disk w)
  | None => disk w
  end.

Definition speed_after (a : Action) (p : ControlPanel) : float :=
  match a with
  | ASpeedChange index => index_to_speed index
  | _ => speed (wallpaper p)
  end.

Definition mode_after (a : Action) (p : ControlPanel) : value :=
  match a with
  | AAspectToggle => other_mode (aspect_mode (wallpaper p))
  | _ => aspect_mode (wallpaper p)
  end.

(** A step that touches neither the settings, nor the file, nor the rate
    and the mode of the surface. *)
Definition quiet (x y : World * ControlPanel) : Prop :=
  config y.2 = config x.2 /\
  disk y.1 = disk x.1 /\
  nwrites y.1 = nwrites x.1 /\
  speed (wallpaper y.2) = speed (wallpaper x.2) /\
  aspect_mode (wallpaper y.2) = aspect_mode (wallpaper x.2).

#[local] Instance quiet_preorder : PreOrder quiet.
Proof.
  split.
  - intros x. repeat split; reflexivity.
  - intros x y z (C1 & D1 & N1 & S1 & A1) (C2 & D2 & N2 & S2 & A2).
    repeat split; congruence.
Qed.

(** [returns m]: [m] never raises. *)
Definition returns {S A} (m : M S A) : Prop :=
  forall ws, exists a, (m ws).2 = Ret a.

Lemma returns_unit {S} (m : M S unit) (ws : World * S) :
  returns m -> (m ws).2 = Ret tt.
Proof. intros Hm. destruct (Hm ws) as [[] Ha]. exact Ha. Qed.

Lemma returns_ret {S A} (a : A) : returns (ret (S := S) a).
Proof. intros ws. exists a. reflexivity. Qed.

Lemma returns_gets {S A} (f : S -> A) : returns (gets f).
Proof. intros ws. eexists. reflexivity. Qed.

Lemma returns_modify {S} (f : S -> S) : returns (modify f).
Proof. intros ws. exists tt. reflexivity. Qed.

Lemma returns_effect {S} (f : World -> World) : returns (effect (S := S) f).
Proof. intros ws. exists tt. reflexivity. Qed.

Lemma returns_save_config {S} (env : Env) (cfg : Config) :
  returns (save_config (S := S) env cfg).
Proof. intros ws. exists tt. reflexivity. Qed.

Lemma returns_bind {S A B} (m : M S A) (k : A -> M S B) :
  returns m -> (forall a, returns (k a)) -> returns (bind m k).
Proof.
  intros Hm Hk ws. unfold bind. destruct (Hm ws) as [a Ha].
  destruct (m ws) as [ws' o]. simpl in Ha. subst o. apply Hk.
Qed.

Lemma returns_try_except {S A} (m : M S A) (h : exn -> M S A) :
  (forall e, returns (h e)) -> returns (try_except m h).
Proof.
  intros Hh ws. unfold try_except. destruct (m ws) as [ws' [a | e]].
  - exists a. reflexivity.
  - apply Hh.
Qed.

Lemma returns_if {S A} (b : bool) (m1 m2 : M S A) :
  returns m1 -> returns m2 -> returns (if b then m1 else m2).
Proof. destruct b; auto. Qed.

Lemma returns_on_wallpaper {A} (m : M WallpaperWindow A) :
  returns m -> returns (on_wallpaper m).
Proof.
  intros Hm [w p]. unfold on_wallpaper. simpl.
  destruct (Hm (w, wallpaper p)) as [a Ha].
  destruct (m (w, wallpaper p)) as [[w' x'] o]. simpl in *. exists a. exact Ha.
Qed.

Lemma returns_play (env : Env) : returns (play env).
Proof. intros ws. exists tt. apply play_returns. Qed.

Lemma returns_pause (env : Env) : returns (pause env).
Proof.
  intros [w s]. exists tt. unfold pause. run_monad. split_ifs; reflexivity.
Qed.

Lemma returns_stop (env : Env) : returns (stop env).
Proof.
  intros [w s]. exists tt. unfold stop. run_monad. split_ifs; reflexivity.
Qed.

Lemma returns_set_speed (env : Env) (r : float) : returns (set_speed env r).
Proof.
  intros [w s]. exists tt. unfold set_speed. run_monad. split_ifs; reflexivity.
Qed.

Lemma returns_toggle_aspect (env : Env) : returns (toggle_aspect env).
Proof.
  intros [w s]. unfold toggle_aspect, _apply_aspect_mode. run_monad.
  destruct (eq_str (aspect_mode s) "fit"); simpl; split_ifs; eexists; reflexivity.
Qed.

Lemma returns_is_playing (env : Env) : returns (is_playing env).
Proof.
  intros [w s]. unfold is_playing. run_monad. split_ifs; eexists; reflexivity.
Qed.

Ltac returns_step :=
  first
    [ apply returns_play | apply returns_pause | apply returns_stop
    | apply returns_set_speed | apply returns_toggle_aspect
    | apply returns_is_playing
    | apply returns_ret | apply returns_gets | apply returns_modify
    | apply returns_effect | apply returns_save_config
    | apply returns_on_wallpaper
    | apply returns_try_except | apply returns_bind | apply returns_if ].

Ltac returns_all := repeat (intros; returns_step).

Lemma handle_returns (env : Env) (a : Action) : returns (handle env a).
Proof.
  destruct a; simpl.
  - unfold on_load, popup. returns_all.
  - unfold on_playpause. returns_all.
  - unfold on_set_default, popup. returns_all.
  - unfold on_speed_change. returns_all.
  - unfold on_aspect_toggle, popup. returns_all.
  - unfold quit_app. returns_all.
Qed.

Lemma run_op_disk (env : Env) (o : Op) (ws : World * WallpaperWindow) :
  disk (run_op env o ws).1 = disk ws.1 /\ nwrites (run_op env o ws).1 = nwrites ws.1.
Proof.
  destruct o; simpl.
  - apply load_disk.
  - apply play_disk.
  - apply pause_disk.
  - apply stop_disk.
  - apply set_speed_disk.
  - apply toggle_aspect_disk.
  - apply is_playing_disk.
Qed.

(** A surface method other than [set_speed] and [toggle_aspect], called
    from the panel, is a quiet step. *)
Lemma on_wallpaper_quiet (env : Env) {A} (m : M WallpaperWindow A) (o : Op) :
  (forall ws, (m ws).1 = run_op env o ws) ->
  speed_after_op o = None -> is_otoggle o = false ->
  keeps quiet (on_wallpaper m).
Proof.
  intros Hm Hspeed Hmode [w p]. unfold on_wallpaper. simpl.
  pose proof (Hm (w, wallpaper p)) as Hrun.
  destruct (run_op_disk env o (w, wallpaper p)) as [Hdisk Hn].
  pose proof (run_op_object env o w (wallpaper p)) as Hobj.
  rewrite <- Hrun in Hdisk, Hn, Hobj.
  destruct (m (w, wallpaper p)) as [[w' x'] r]. simpl in *.
  repeat split; simpl; try assumption; subst x';
    destruct o; simpl in *; try discriminate;
    repeat match goal with
      | |- context [match ?x with _ => _ end] => destruct x
      end;
    reflexivity.
Qed.

Lemma modify_widget_quiet (f : ControlPanel -> ControlPanel) :
  (forall p, wallpaper (f p) = wallpaper p /\ config (f p) = config p) ->
  keeps quiet (modify f).
Proof.
  intros Hf [w p]. destruct (Hf p) as [Hw Hc].
  repeat split; simpl; rewrite ?Hw, ?Hc; reflexivity.
Qed.

Lemma popup_quiet (q : Popup) : keeps quiet (popup q).
Proof. intros [w p]. repeat split. Qed.

Lemma print_quiet (env : Env) (line : string) : keeps quiet (print line).
Proof. intros [w p]. repeat split. Qed.

Ltac quiet_leaf env :=
  first
    [ apply popup_quiet
    | apply (print_quiet env)
    | apply modify_widget_quiet; intros; split; reflexivity
    | eapply (on_wallpaper_quiet env _ (OLoad _)); [intros; reflexivity | reflexivity ..]
    | apply (on_wallpaper_quiet env _ OPlay); [intros; reflexivity | reflexivity ..]
    | apply (on_wallpaper_quiet env _ OPause); [intros; reflexivity | reflexivity ..]
    | apply (on_wallpaper_quiet env _ OStop); [intros; reflexivity | reflexivity ..]
    | apply (on_wallpaper_quiet env _ OIsPlaying); [intros; reflexivity | reflexivity ..] ].

Lemma on_playpause_quiet (env : Env) : keeps quiet (on_playpause env).
Proof. unfold on_playpause. frame ltac:(quiet_leaf env). Qed.

Lemma quit_app_quiet (env : Env) : keeps quiet (quit_app env).
Proof. unfold quit_app. frame ltac:(quiet_leaf env). Qed.

Lemma startup_quiet (env : Env) : keeps quiet (startup env).
Proof.
  unfold startup, set_and_exists, with_path.
  frame ltac:(first
    [ quiet_leaf env
    | match goal with |- keeps _ (match ?v with _ => _ end) => destruct v end ]).
Qed.

(** Assign a key, save, go on quietly. *)
Lemma store_then (env : Env) (k : string) (v : value) (rest : M ControlPanel unit)
    (w : World) (p : ControlPanel) :
  keeps quiet rest ->
  let r := (modify (set_config_key k v) ;;
            cfg <- gets config ;;
            save_config env cfg ;;
            rest) (w, p) in
  config r.1.2 = <[k := v]> (config p) /\
  disk r.1.1
  = file_after_write (write_result env (nwrites w)) (<[k := v]> (config p)) (disk w) /\
  nwrites r.1.1 = S (nwrites w) /\
  speed (wallpaper r.1.2) = speed (wallpaper p) /\
  aspect_mode (wallpaper r.1.2) = aspect_mode (wallpaper p).
Proof.
  intros Hrest r. subst r. unfold bind, modify, gets, save_config. simpl.
  match goal with
  | |- context [rest ?x] => destruct (Hrest x) as (C & D & N & S & A)
  end.
  simpl in *. rewrite C, D, N, S, A.
  repeat split; reflexivity.
Qed.

Lemma toggle_aspect_value (env : Env) (w : World) (s : WallpaperWindow) :
  (toggle_aspect env (w, s)).2 = Ret (other_mode (aspect_mode s)).
Proof.
  unfold toggle_aspect, _apply_aspect_mode, other_mode. run_monad.
  destruct (eq_str (aspect_mode s) "fit"); simpl; split_ifs; reflexivity.
Qed.

Lemma bind_apply {S A B} (m : M S A) (k : A -> M S B) (ws : World * S) :
  bind m k ws
  = match m ws with
    | (ws', Ret a) => k a ws'
    | (ws', Raise e) => (ws', Raise e)
    end.
Proof. reflexivity. Qed.

Lemma bind_gets {S A B} (f : S -> A) (k : A -> M S B) (ws : World * S) :
  bind (gets f) k ws = k (f ws.2) ws.
Proof. reflexivity. Qed.

Lemma bind_modify {S B} (f : S -> S) (k : unit -> M S B) (ws : World * S) :
  bind (modify f) k ws = k tt (ws.1, f ws.2).
Proof. reflexivity. Qed.

Ltac use_store env :=
  match goal with
  | |- context [(modify (set_config_key ?k ?v) ;; cfg <- gets config ;;
                 save_config env cfg ;; ?rest) (?w1, ?p1)] =>
      let C := fresh "C" in
      let D := fresh "D" in
      let S := fresh "S" in
      let A := fresh "A" in
      destruct (store_then env k v rest w1 p1) as (C & D & _ & S & A);
      [ frame ltac:(quiet_leaf env)
      | cbv zeta in C, D, S, A ]
  end.

(** What a handler leaves in the settings, in the file, and in the rate and
    the mode of the surface. *)
Lemma handle_summary (env : Env) (a : Action) (w : World) (p : ControlPanel) :
  config (handle env a (w, p)).1.2 = settings_after a p /\
  disk (handle env a (w, p)).1.1 = file_after env a w p /\
  speed (wallpaper (handle env a (w, p)).1.2) = speed_after a p /\
  aspect_mode (wallpaper (handle env a (w, p)).1.2) = mode_after a p.
Proof.
  unfold file_after, settings_after.
  destruct a as [chosen | | | index | |]; simpl handle; simpl stored;
    simpl speed_after; simpl mode_after.
  - unfold on_load. destruct (String.eqb chosen "");
      [split; [| split; [| split]]; reflexivity |].
    use_store env.
    split; [exact C | split; [exact D | split; [exact S | exact A]]].
  - destruct (on_playpause_quiet env (w, p)) as (C & D & _ & S & A).
    split; [exact C | split; [exact D | split; [exact S | exact A]]].
  - unfold on_set_default. rewrite bind_gets. cbn [fst snd].
    destruct (String.eqb (current_video_path (wallpaper p)) ""); cbn [negb];
      [split; [| split; [| split]]; reflexivity |].
    use_store env.
    split; [exact C | split; [exact D | split; [exact S | exact A]]].
  - unfold on_speed_change. rewrite bind_apply.
    pose proof (set_speed_object env (index_to_speed index) (w, wallpaper p)) as Hobj.
    destruct (set_speed_disk env (index_to_speed index) (w, wallpaper p)) as [Hdisk Hn].
    pose proof (returns_unit _ (w, wallpaper p)
                  (returns_set_speed env (index_to_speed index))) as Hret.
    unfold on_wallpaper. cbn [fst snd].
    destruct (set_speed env (index_to_speed index) (w, wallpaper p)) as [[w0 x0] o].
    simpl in Hobj, Hdisk, Hn, Hret. subst o x0.
    use_store env.
    split; [exact C | split; [| split; [exact S | exact A]]].
    rewrite D, Hdisk, Hn. reflexivity.
  - unfold on_aspect_toggle. rewrite bind_apply.
    pose proof (run_op_object env OToggleAspect w (wallpaper p)) as Hobj.
    destruct (toggle_aspect_disk env (w, wallpaper p)) as [Hdisk Hn].
    pose proof (toggle_aspect_value env w (wallpaper p)) as Hret.
    unfold on_wallpaper. cbn [fst snd]. simpl in Hobj.
    destruct (toggle_aspect env (w, wallpaper p)) as [[w0 x0] o].
    simpl in Hobj, Hdisk, Hn, Hret. subst o x0.
    rewrite bind_modify. cbn [fst snd].
    use_store env.
    split; [exact C | split; [| split; [exact S | exact A]]].
    rewrite D, Hdisk, Hn. reflexivity.
  - destruct (quit_app_quiet env (w, p)) as (C & D & _ & S & A).
    split; [exact C | split; [exact D | split; [exact S | exact A]]].
Qed.

Lemma run_action_handle (env : Env) (a : Action) (wp : World * ControlPanel) :
  run_action env a wp = (handle env a wp).1.
Proof. destruct a; reflexivity. Qed.

Lemma run_actions_cons (env : Env) (a : Action) (acts : list Action)
    (wp : World * ControlPanel) :
  run_actions env (a :: acts) wp = run_actions env acts (run_action env a wp).
Proof. reflexivity. Qed.

(** A property of the panel kept by every handler is kept by every run. *)
Lemma run_actions_invariant (env : Env) (P : World * ControlPanel -> Prop) :
  (forall a wp, P wp -> P (handle env a wp).1) ->
  forall acts wp, P wp -> P (run_actions env acts wp).
Proof.
  intros Hstep acts. induction acts as [| a acts IH]; intros wp HP; [exact HP |].
  rewrite run_actions_cons, run_action_handle. apply IH, Hstep, HP.
Qed.

(** X5 - no handler of the control panel lets an exception out: whatever
    the file dialog returned, whatever index was selected and whatever
    libvlc and the file system do, [on_load], [on_playpause],
    [on_set_default], [on_speed_change], [on_aspect_toggle] and [quit_app]
    return normally. *)
Theorem handlers_never_raise (env : Env) (wp : World * ControlPanel)
    (chosen : string) (index : Z) :
  (on_load env chosen wp).2 = Ret tt /\
  (on_playpause env wp).2 = Ret tt /\
  (on_set_default env wp).2 = Ret tt /\
  (on_speed_change env index wp).2 = Ret tt /\
  (on_aspect_toggle env wp).2 = Ret tt /\
  (quit_app env wp).2 = Ret tt.
Proof.
  repeat apply conj.
  - apply (returns_unit _ wp (handle_returns env (ALoad chosen))).
  - apply (returns_unit _ wp (handle_returns env APlayPause)).
  - apply (returns_unit _ wp (handle_returns env ASetDefault)).
  - apply (returns_unit _ wp (handle_returns env (ASpeedChange index))).
  - apply (returns_unit _ wp (handle_returns env AAspectToggle)).
  - apply (returns_unit _ wp (handle_returns env AQuit)).
Qed.

(** ** Settings across a restart *)

(** Merging the defaults into what [load_config] returned adds nothing. *)
Lemma load_config_absorbs_defaults (f : ConfigFile) (cfg : Config) :
  load_config f = Ret cfg -> cfg ∪ DEFAULT_CONFIG = cfg.
Proof.
  assert (Hdd : DEFAULT_CONFIG ∪ DEFAULT_CONFIG = DEFAULT_CONFIG)
    by apply (idemp_L (∪)).
  destruct f as [| [| | [c |]] |]; simpl; intros Hload;
    inversion Hload; subst; try exact Hdd.
  rewrite <- (assoc_L (∪)), Hdd. reflexivity.
Qed.

(** What the next start would read is what the panel holds now. *)
Definition restart_reads_settings (wp : World * ControlPanel) : Prop :=
  load_config (disk wp.1) = Ret (config wp.2).

Lemma handle_keeps_restart (env : Env) (a : Action) (wp : World * ControlPanel) :
  (forall n, write_result env n = Written) ->
  restart_reads_settings wp -> restart_reads_settings (handle env a wp).1.
Proof.
  intros Hwrite Hsync. destruct wp as [w p]. unfold restart_reads_settings in *.
  destruct (handle_summary env a w p) as (C & D & _ & _).
  simpl in *. rewrite C, D. unfold file_after, settings_after.
  destruct (stored a p) as [[k v] |]; [| exact Hsync].
  rewrite Hwrite. cbn [file_after_write].
  change (Ret (<[k:=v]> (config p) ∪ DEFAULT_CONFIG) = Ret (<[k:=v]> (config p))).
  f_equal. rewrite <- insert_union_l.
  rewrite (load_config_absorbs_defaults _ _ Hsync). reflexivity.
Qed.

Lemma WallpaperWindow_init_disk (env : Env) (cfg : Config) (w : World) :
  disk (WallpaperWindow_init env cfg (w, tt)).1.1 = disk w.
Proof.
  unfold WallpaperWindow_init. run_monad.
  destruct (raises env (calls w) InstanceNew); [reflexivity |].
  destruct (raises env (calls w ++ [InstanceNew]) MediaPlayerNew); [reflexivity |].
  destruct (py_float env (dict_get cfg "speed" (VNum 1%float))); reflexivity.
Qed.

Lemma ControlPanel_init_quiet (env : Env) (x : WallpaperWindow) (cfg : Config)
    (w : World) :
  quiet (w, new_panel x cfg) (ControlPanel_init env x cfg w).1.
Proof.
  unfold ControlPanel_init.
  assert (Hk : keeps quiet
            (r <- of_outcome (py_float env (dict_get cfg "speed" (VNum 1%float))) ;;
             modify (set_speed_box_index (speed_to_index r)) ;;
             startup env)).
  { frame ltac:(first [ apply startup_quiet | quiet_leaf env ]). }
  apply Hk.
Qed.

(** X6 - when writing the settings file does not fail, the file always
    holds what the panel holds: after [main] has built the panel and after
    any sequence of user actions, reading the file again with [load_config]
    returns exactly the settings now in memory. *)
Theorem settings_survive_restart (env : Env) (w w' : World) (p : ControlPanel)
    (acts : list Action) :
  (forall n, write_result env n = Written) ->
  main env w = (w', Ret p) ->
  load_config (disk (run_actions env acts (w', p)).1)
  = Ret (config (run_actions env acts (w', p)).2).
Proof.
  intros Hwrite Hmain.
  apply (run_actions_invariant env restart_reads_settings).
  - intros a wp. apply handle_keeps_restart. exact Hwrite.
  - unfold main in Hmain.
    destruct (load_config (disk w)) as [cfg | e] eqn:Hcfg; [| discriminate Hmain].
    pose proof (WallpaperWindow_init_disk env cfg w) as Hd1.
    destruct (WallpaperWindow_init env cfg (w, tt)) as [[w1 []] [x | e]];
      [| discriminate Hmain].
    pose proof (ControlPanel_init_quiet env x cfg w1) as (C & D & _).
    destruct (ControlPanel_init env x cfg w1) as [[w2 p1] [[] | e]];
      [| discriminate Hmain].
    injection Hmain as <- <-. unfold restart_reads_settings. simpl in *.
    rewrite C, D, Hd1. exact Hcfg.
Qed.

Lemma settings_survive_restart_witness :
  let env := sound_env (String.eqb demo_path) in
  let started :=
    ControlPanel_init env fresh_window DEFAULT_CONFIG (log_calls init_calls empty_world) in
  let acts := [ALoad demo_path; ASetDefault; ASpeedChange 3; AAspectToggle; APlayPause] in
  load_config (disk (run_actions env acts started.1).1)
  = Ret (config (run_actions env acts started.1).2).
Proof.
  apply (settings_survive_restart (sound_env (String.eqb demo_path)) empty_world
           (ControlPanel_init (sound_env (String.eqb demo_path)) fresh_window
              DEFAULT_CONFIG (log_calls init_calls empty_world)).1.1
           (ControlPanel_init (sound_env (String.eqb demo_path)) fresh_window
              DEFAULT_CONFIG (log_calls init_calls empty_world)).1.2
           [ALoad demo_path; ASetDefault; ASpeedChange 3; AAspectToggle; APlayPause]).
  - intros n. reflexivity.
  - vm_compute. reflexivity.
Defined.

(** ** Settings and surface agree *)

(** The settings hold the rate and the mode of the surface. *)
Definition settings_mirror_surface (wp : World * ControlPanel) : Prop :=
  config wp.2 !! "speed" = Some (VNum (speed (wallpaper wp.2))) /\
  config wp.2 !! "aspect_mode" = Some (aspect_mode (wallpaper wp.2)).

(** X7 - the "speed" and "aspect_mode" settings always equal the rate and
    the mode of the surface: every handler that changes one changes the
    other to the same value, and no other handler touches either. *)
Theorem settings_follow_surface (env : Env) (acts : list Action)
    (wp : World * ControlPanel) :
  settings_mirror_surface wp ->
  settings_mirror_surface (run_actions env acts wp).
Proof.
  apply (run_actions_invariant env settings_mirror_surface).
  clear. intros a [w p] [Hspeed Hmode]. unfold settings_mirror_surface in *.
  destruct (handle_summary env a w p) as (C & _ & S & A).
  simpl in *. rewrite C, S, A. unfold settings_after.
  destruct a as [chosen | | | index | |]; simpl.
  - destruct (String.eqb chosen ""); [split; assumption |].
    rewrite !lookup_insert_ne by discriminate. split; assumption.
  - split; assumption.
  - destruct (String.eqb (current_video_path (wallpaper p)) "");
      [split; assumption |].
    rewrite !lookup_insert_ne by discriminate. split; assumption.
  - rewrite lookup_insert_eq, lookup_insert_ne by discriminate.
    split; [reflexivity | assumption].
  - rewrite lookup_insert_eq, lookup_insert_ne by discriminate.
    split; [assumption | reflexivity].
  - split; assumption.
Qed.

Lemma settings_follow_surface_witness :
  let env := broken_env (String.eqb demo_path) in
  let acts := [ASpeedChange 0; ALoad demo_path; AAspectToggle; ASetDefault; AQuit] in
  settings_mirror_surface
    (run_actions env acts (empty_world, new_panel fresh_window DEFAULT_CONFIG)).
Proof.
  apply (settings_follow_surface (broken_env (String.eqb demo_path))
           [ASpeedChange 0; ALoad demo_path; AAspectToggle; ASetDefault; AQuit]
           (empty_world, new_panel fresh_window DEFAULT_CONFIG)).
  split; reflexivity.
Defined.

(** ** The buttons *)

(** An enabled Play/Pause or Set-as-Default button sits over a bound media. *)
Definition buttons_sound (wp : World * ControlPanel) : Prop :=
  btn_playpause_enabled wp.2 || btn_setdefault_enabled wp.2 = true ->
  surface_state (wallpaper wp.2) = Loaded.

Definition buttons_stay_sound (x y : World * ControlPanel) : Prop :=
  buttons_sound x -> buttons_sound y.

Definition loaded_kept (x y : World * ControlPanel) : Prop :=
  surface_state (wallpaper x.2) = Loaded -> surface_state (wallpaper y.2) = Loaded.

#[local] Instance buttons_stay_sound_preorder : PreOrder buttons_stay_sound.
Proof.
  split.
  - intros x H. exact H.
  - intros x y z H1 H2 H. apply H2, H1, H.
Qed.

#[local] Instance loaded_kept_preorder : PreOrder loaded_kept.
Proof.
  split.
  - intros x H. exact H.
  - intros x y z H1 H2 H. apply H2, H1, H.
Qed.

Lemma object_after_loaded (env : Env) (o : Op) (w : World) (s : WallpaperWindow) :
  surface_state s = Loaded -> surface_state (object_after env o w s) = Loaded.
Proof.
  apply (object_after_ind env (fun x => surface_state x = Loaded));
    intros; first [assumption | reflexivity].
Qed.

Lemma on_wallpaper_loaded (env : Env) {A} (m : M WallpaperWindow A) (o : Op) :
  (forall ws, (m ws).1 = run_op env o ws) -> keeps loaded_kept (on_wallpaper m).
Proof.
  intros Hm [w p] Hloaded. unfold on_wallpaper. simpl in *.
  pose proof (run_op_object env o w (wallpaper p)) as Hobj.
  rewrite <- (Hm (w, wallpaper p)) in Hobj.
  destruct (m (w, wallpaper p)) as [[w' x'] r]. simpl in *. subst x'.
  apply object_after_loaded, Hloaded.
Qed.

Lemma modify_loaded (f : ControlPanel -> ControlPanel) :
  (forall p, wallpaper (f p) = wallpaper p) -> keeps loaded_kept (modify f).
Proof. intros Hf [w p] H. simpl in *. rewrite Hf. exact H. Qed.

Lemma on_wallpaper_buttons (env : Env) {A} (m : M WallpaperWindow A) (o : Op) :
  (forall ws, (m ws).1 = run_op env o ws) ->
  keeps buttons_stay_sound (on_wallpaper m).
Proof.
  intros Hm [w p] Hsound Hon.
  pose proof (on_wallpaper_loaded env m o Hm (w, p)) as Hkept.
  unfold loaded_kept, on_wallpaper in *. simpl in *.
  destruct (m (w, wallpaper p)) as [[w' x'] r]. simpl in *.
  apply Hkept, Hsound, Hon.
Qed.

Lemma modify_buttons (f : ControlPanel -> ControlPanel) :
  (forall p, wallpaper (f p) = wallpaper p /\
             btn_playpause_enabled (f p) = btn_playpause_enabled p /\
             btn_setdefault_enabled (f p) = btn_setdefault_enabled p) ->
  keeps buttons_stay_sound (modify f).
Proof.
  intros Hf [w p] Hsound. destruct (Hf p) as (Hw & H1 & H2).
  unfold buttons_sound in *. simpl in *. rewrite Hw, H1, H2. exact Hsound.
Qed.

Lemma world_step_buttons (f : World -> World) :
  keeps buttons_stay_sound (effect f).
Proof. intros [w p] H. exact H. Qed.

Lemma save_config_buttons (env : Env) (cfg : Config) :
  keeps buttons_stay_sound (save_config env cfg).
Proof. intros [w p] H. exact H. Qed.

(** Load, then a tail that may enable the buttons: the tail runs only over
    a media that [load] has just bound. *)
Lemma guarded_enable (env : Env) (path : string) (rest : M ControlPanel unit)
    (h : exn -> M ControlPanel unit) :
  keeps loaded_kept rest ->
  (forall e, keeps buttons_stay_sound (h e)) ->
  keeps buttons_stay_sound
    (try_except (bind (on_wallpaper (load env path)) (fun _ => rest)) h).
Proof.
  intros Hrest Hh [w p] Hsound. unfold try_except, bind.
  pose proof (on_wallpaper_buttons env (load env path) (OLoad path)
                (fun ws => eq_refl) (w, p) Hsound) as Hfail.
  unfold on_wallpaper in *. simpl in *.
  destruct (load env path (w, wallpaper p)) as [[w1 x1] [a | e]] eqn:Hload;
    simpl in *.
  - destruct (load_returns_object _ _ _ _ _ _ _ Hload) as [_ Hx1].
    assert (Hbound : surface_state (wallpaper (set_wallpaper x1 p)) = Loaded)
      by (subst x1; reflexivity).
    pose proof (Hrest (w1, set_wallpaper x1 p) Hbound) as Hafter.
    destruct (rest (w1, set_wallpaper x1 p)) as [y [b | e]]; simpl in *.
    + intros _. exact Hafter.
    + apply Hh. intros _. exact Hafter.
  - apply Hh. exact Hfail.
Qed.

Ltac loaded_leaf env :=
  first
    [ apply modify_loaded; intros; reflexivity
    | eapply (on_wallpaper_loaded env _ (OLoad _)); intros; reflexivity
    | apply (on_wallpaper_loaded env _ OPlay); intros; reflexivity ].

Ltac buttons_leaf env :=
  first
    [ match goal with
      | |- keeps _ (try_except (match ?v with _ => _ end) _) => destruct v
      end
    | apply (save_config_buttons env)
    | apply world_step_buttons
    | apply guarded_enable; [frame ltac:(loaded_leaf env) |]
    | apply modify_buttons; intros; repeat split; reflexivity
    | apply (on_wallpaper_buttons env _ OPlay); intros; reflexivity
    | apply (on_wallpaper_buttons env _ OPause); intros; reflexivity
    | apply (on_wallpaper_buttons env _ OStop); intros; reflexivity
    | apply (on_wallpaper_buttons env _ OIsPlaying); intros; reflexivity
    | apply (on_wallpaper_buttons env _ OToggleAspect); intros; reflexivity
    | eapply (on_wallpaper_buttons env _ (OSetSpeed _)); intros; reflexivity
    | match goal with
      | |- keeps _ (try_except (match ?v with _ => _ end) _) => destruct v
      | |- keeps _ (match ?v with _ => _ end) => destruct v
      end ].

Lemma handle_buttons (env : Env) (a : Action) (wp : World * ControlPanel) :
  buttons_sound wp -> buttons_sound (handle env a wp).1.
Proof.
  revert wp.
  change (keeps buttons_stay_sound (handle env a)).
  destruct a; simpl.
  - unfold on_load, popup. frame ltac:(buttons_leaf env).
  - unfold on_playpause. frame ltac:(buttons_leaf env).
  - unfold on_set_default, popup. frame ltac:(buttons_leaf env).
  - unfold on_speed_change. frame ltac:(buttons_leaf env).
  - unfold on_aspect_toggle, popup. frame ltac:(buttons_leaf env).
  - unfold quit_app. frame ltac:(buttons_leaf env).
Qed.

Lemma ControlPanel_init_buttons (env : Env) (x : WallpaperWindow) (cfg : Config)
    (w : World) :
  buttons_sound (ControlPanel_init env x cfg w).1.
Proof.
  assert (Hk : keeps buttons_stay_sound
            (r <- of_outcome (py_float env (dict_get cfg "speed" (VNum 1%float))) ;;
             modify (set_speed_box_index (speed_to_index r)) ;;
             startup env)).
  { unfold startup, set_and_exists, with_path, print.
    frame ltac:(buttons_leaf env). }
  apply Hk. intros Hon. discriminate Hon.
Qed.

(** X8 - the Play/Pause and Set-as-Default buttons are enabled only over a
    bound media: [__init__] creates them disabled, the startup policy and
    [on_load] enable them only after [load] has returned, and no handler
    unbinds the media afterwards. *)
Theorem buttons_enabled_only_when_loaded (env : Env) (x : WallpaperWindow)
    (cfg : Config) (w : World) (acts : list Action) :
  let panel := (run_actions env acts (ControlPanel_init env x cfg w).1).2 in
  btn_playpause_enabled panel || btn_setdefault_enabled panel = true ->
  surface_state (wallpaper panel) = Loaded.
Proof.
  intros panel.
  apply (run_actions_invariant env buttons_sound).
  - intros a wp. apply handle_buttons.
  - apply ControlPanel_init_buttons.
Qed.

Lemma buttons_enabled_only_when_loaded_witness :
  let env := sound_env (String.eqb demo_path) in
  let acts := [APlayPause; ALoad "gone.mp4"; ALoad demo_path; AQuit] in
  let panel :=
    (run_actions env acts
       (ControlPanel_init env fresh_window DEFAULT_CONFIG empty_world).1).2 in
  btn_playpause_enabled panel || btn_setdefault_enabled panel = true /\
  surface_state (wallpaper panel) = Loaded.
Proof.
  split; [reflexivity |].
  apply (buttons_enabled_only_when_loaded (sound_env (String.eqb demo_path))
           fresh_window DEFAULT_CONFIG empty_world
           [APlayPause; ALoad "gone.mp4"; ALoad demo_path; AQuit]).
  reflexivity.
Defined.

(** ** Play/Pause on an empty surface *)

Lemma is_playing_run (env : Env) (w : World) (s : WallpaperWindow) :
  (is_playing env (w, s)).1 = (log_call IsPlaying w, s).
Proof. unfold is_playing. run_monad. split_ifs; reflexivity. Qed.

(** X9 - on a surface with no media, when the engine reports that nothing
    plays, [on_playpause] only queries the engine: no [Play] is sent and the
    surface is untouched, yet the button turns to "Pause" and the status
    reads "Playing". *)
Theorem playpause_on_empty_surface (env : Env) (w : World) (p : ControlPanel) :
  media (wallpaper p) = None ->
  (is_playing env (w, wallpaper p)).2 = Ret false ->
  calls (on_playpause env (w, p)).1.1 = calls w ++ [IsPlaying] /\
  wallpaper (on_playpause env (w, p)).1.2 = wallpaper p /\
  btn_playpause_text (on_playpause env (w, p)).1.2 = "Pause" /\
  status (on_playpause env (w, p)).1.2 = "Playing".
Proof.
  intros Hempty Hidle.
  assert (Hrun : on_playpause env (w, p)
                 = ((log_call IsPlaying w,
                     set_status "Playing"
                       (set_playpause_text "Pause" (set_wallpaper (wallpaper p) p))),
                    Ret tt)).
  { unfold on_playpause. rewrite bind_apply.
    pose proof (is_playing_run env w (wallpaper p)) as Hq.
    unfold on_wallpaper at 1. cbn [fst snd].
    destruct (is_playing env (w, wallpaper p)) as [[w0 x0] o].
    simpl in Hidle, Hq. subst o. injection Hq as -> ->.
    unfold play. run_panel. rewrite Hempty. reflexivity. }
  rewrite Hrun. repeat split; reflexivity.
Qed.

Lemma playpause_on_empty_surface_witness :
  let env := sound_env (String.eqb demo_path) in
  let w := empty_world in
  let p := new_panel fresh_window DEFAULT_CONFIG in
  calls (on_playpause env (w, p)).1.1 = calls w ++ [IsPlaying] /\
  wallpaper (on_playpause env (w, p)).1.2 = wallpaper p /\
  btn_playpause_text (on_playpause env (w, p)).1.2 = "Pause" /\
  status (on_playpause env (w, p)).1.2 = "Playing".
Proof.
  apply (playpause_on_empty_surface (sound_env (String.eqb demo_path)) empty_world
           (new_panel fresh_window DEFAULT_CONFIG)); reflexivity.
Defined.

(** ** The speed selector *)

(** X10 - the two tables of the speed selector are inverse on the four
    entries: an index from 0 to 3 comes back from its rate, every other
    index comes back as 1, and a rate comes back from its index exactly
    when it is one of 0.5, 1.0, 1.5, 2.0. *)
Theorem selector_tables_round_trip (index : Z) (r : float) :
  speed_to_index (index_to_speed index)
  = (if (0 <=? index)%Z && (index <=? 3)%Z then index else 1%Z) /\
  PrimFloat.eqb r (index_to_speed (speed_to_index r)) = known_rate r.
Proof.
  split.
  - unfold index_to_speed.
    destruct (Z.eqb_spec index 0) as [-> | H0]; [reflexivity |].
    destruct (Z.eqb_spec index 1) as [-> | H1]; [reflexivity |].
    destruct (Z.eqb_spec index 2) as [-> | H2]; [reflexivity |].
    destruct (Z.eqb_spec index 3) as [-> | H3]; [reflexivity |].
    destruct (Z.leb_spec 0 index), (Z.leb_spec index 3); simpl;
      first [reflexivity | lia].
  - unfold speed_to_index, known_rate, KNOWN_RATES. simpl existsb.
    destruct (PrimFloat.eqb r 0.5) eqn:E1; [simpl; exact E1 |].
    destruct (PrimFloat.eqb r 1) eqn:E2; [simpl; exact E2 |].
    destruct (PrimFloat.eqb r 1.5) eqn:E3; [simpl; exact E3 |].
    destruct (PrimFloat.eqb r 2) eqn:E4; [simpl; exact E4 |].
    simpl. exact E2.
Qed.

Definition index_kept (x y : World * ControlPanel) : Prop :=
  speed_box_index y.2 = speed_box_index x.2.

#[local] Instance index_kept_preorder : PreOrder index_kept.
Proof.
  split.
  - intros x. reflexivity.
  - intros x y z H1 H2. unfold index_kept in *. congruence.
Qed.





(** [main] once the settings are read: the two libvlc calls of
    [WallpaperWindow.__init__], the conversion of the rate, the startup
    policy. *)
Lemma main_tested (env : Env) (w : World) (cfg : Config) :
  load_config (disk w) = Ret cfg ->
  main env w
  = match first_failure (raises env) (calls w) init_calls with
    | Some c => (log_calls (issued (raises env) (calls w) init_calls) w, Raise (VLCError c))
    | None =>
        match py_float env (dict_get cfg "speed" (VNum 1%float)) with
        | Raise e => (log_calls init_calls w, Raise e)
        | Ret r =>
            match startup env
                    (log_calls init_calls w,
                     set_speed_box_index (speed_to_index r)
                       (new_panel (new_window (dict_get cfg "aspect_mode" (VStr "fit")) r)
                          cfg)) with
            | ((w', p), Ret _) => (w', Ret p)
            | ((w', _), Raise e) => (w', Raise e)
            end
        end
    end.
Proof.
  intros Hcfg. unfold main. rewrite Hcfg.
  unfold WallpaperWindow_init, ControlPanel_init, init_calls, log_calls.
  cbv beta iota zeta delta [bind ret vlc of_outcome modify fst snd first_failure issued foldl].
  destruct (raises env (calls w) InstanceNew); [reflexivity |].
  change (calls (log_call InstanceNew w)) with (calls w ++ [InstanceNew]).
  destruct (raises env (calls w ++ [InstanceNew]) MediaPlayerNew); [reflexivity |].
  destruct (py_float env (dict_get cfg "speed" (VNum 1%float))); reflexivity.
Qed.



(** ** Ill-typed and well-typed settings at startup *)

Lemma load_config_file (cfg : Config) :
  load_config (Present (Parsed (JObject cfg))) = Ret (cfg ∪ DEFAULT_CONFIG).
Proof. reflexivity. Qed.







(** X14 - what is fatal at startup, for a "speed" that [float()] accepts
    and strings under "default_video" and "last_video": [main] fails when
    libvlc raises while the instance and the player are created, and when
    the existence test of the default video, or that of the last video if
    the default one is not usable, raises; in every other case it builds the
    panel, whatever libvlc does while the video is loaded and played. *)
Theorem typed_settings_start_unless_refused (env : Env) (w : World) (cfg : Config)
    (r : float) (d l : string) :
  load_config (disk w) = Ret cfg ->
  py_float env (dict_get cfg "speed" (VNum 1%float)) = Ret r ->
  dict_get cfg "default_video" (VStr "") = VStr d ->
  dict_get cfg "last_video" (VStr "") = VStr l ->
  let started := exists w' p, main env w = (w', Ret p) /\ speed (wallpaper p) = r in
  match first_failure (raises env) (calls w) init_calls with
  | Some c => (main env w).2 = Raise (VLCError c)
  | None =>
      match test_raises env d with
      | Some e => (main env w).2 = Raise e
      | None =>
          if usable env d then started
          else match test_raises env l with
               | Some e => (main env w).2 = Raise e
               | None => started
               end
      end
  end.
Proof.
  intros Hcfg Hfloat Hd Hl started. subst started.
  rewrite (main_tested env w cfg Hcfg), Hfloat.
  destruct (first_failure (raises env) (calls w) init_calls); [reflexivity |].
  set (x := new_window (dict_get cfg "aspect_mode" (VStr "fit")) r).
  set (p0 := set_speed_box_index (speed_to_index r) (new_panel x cfg)).
  destruct (startup_tested env (log_calls init_calls w) p0 d l Hd Hl) as [Hrun Hret].
  destruct (startup_quiet env (log_calls init_calls w, p0)) as (_ & _ & _ & S & _).
  assert (Hstarted :
            startup env (log_calls init_calls w, p0)
            = startup_policy env d l (log_calls init_calls w, p0) ->
            exists w' p,
              match startup env (log_calls init_calls w, p0) with
              | (w'0, p1, Ret _) => (w'0, Ret p1)
              | (w'0, _, Raise e) => (w'0, Raise e)
              end = (w', Ret p) /\ speed (wallpaper p) = r).
  { intros Heq. rewrite <- Heq in Hret.
    destruct (startup env (log_calls init_calls w, p0)) as [[w1 p1] o].
    cbn [fst snd] in Hret, S. subst o. exists w1, p1. split; [reflexivity | exact S]. }
  destruct (test_raises env d) as [e |]; [rewrite Hrun; reflexivity |].
  destruct (usable env d); [apply Hstarted, Hrun |].
  destruct (test_raises env l) as [e |]; [rewrite Hrun; reflexivity |].
  apply Hstarted, Hrun.
Qed.

Lemma typed_settings_start_unless_refused_witness :
  let env := sound_env (String.eqb demo_path) in
  let cfg := <["default_video" := VStr demo_path]> DEFAULT_CONFIG in
  let w := log_write Written cfg empty_world in
  match first_failure (raises env) (calls w) init_calls with
  | Some c => (main env w).2 = Raise (VLCError c)
  | None =>
      match test_raises env demo_path with
      | Some e => (main env w).2 = Raise e
      | None =>
          if usable env demo_path
          then exists w' p, main env w = (w', Ret p) /\ speed (wallpaper p) = 1%float
          else match test_raises env "" with
               | Some e => (main env w).2 = Raise e
               | None =>
                   exists w' p, main env w = (w', Ret p) /\ speed (wallpaper p) = 1%float
               end
      end
  end.
Proof.
  apply (typed_settings_start_unless_refused (sound_env (String.eqb demo_path))
           (log_write Written (<["default_video" := VStr demo_path]> DEFAULT_CONFIG)
              empty_world)
           (<["default_video" := VStr demo_path]> DEFAULT_CONFIG)
           1%float demo_path "").
  - vm_compute. reflexivity.
  - reflexivity.
  - reflexivity.
  - reflexivity.
Defined.

(** ** A load that fails half way *)

Lemma load_outcome (env : Env) (w : World) (s : WallpaperWindow) (path : string) :
  (load env path (w, s)).2
  = match path_exists env path with
    | Ret true =>
        match first_failure (raises env) (calls w) (bind_calls path) with
        | Some c => Raise (VLCError c)
        | None => Ret tt
        end
    | Ret false => Raise (FileNotFoundError path)
    | Raise e => Raise e
    end.
Proof.
  rewrite load_tested. unfold _apply_aspect_mode, bind_calls, loaded_media.
  destruct (path_exists env path) as [[|] | e]; [| reflexivity | reflexivity].
  run_monad. split_ifs; reflexivity.
Qed.

(** X15 - [load] stores the path before its first libvlc call and stores
    the media before it binds it: when the path exists and libvlc then
    raises, the exception is that of the first failing call, the object
    already names the new path, and it holds the new media exactly when the
    failing call is [set_media]; rate, mode and flags are untouched. *)
Theorem failed_load_leaves_path (env : Env) (w : World) (s : WallpaperWindow)
    (path : string) (e : exn) :
  path_exists env path = Ret true ->
  (load env path (w, s)).2 = Raise e ->
  exists c,
    first_failure (raises env) (calls w) (bind_calls path) = Some c /\
    e = VLCError c /\
    (load env path (w, s)).1.2
    = match first_failure (raises env) (calls w) (create_calls path) with
      | Some _ => set_current_video_path path s
      | None => set_media (Some (loaded_media path)) (set_current_video_path path s)
      end.
Proof.
  intros Hex Hraise. rewrite load_outcome, Hex in Hraise.
  pose proof (run_op_object env (OLoad path) w s) as Hobj.
  unfold object_after in Hobj. rewrite Hex in Hobj.
  destruct (first_failure (raises env) (calls w) (bind_calls path)) as [c |];
    [| discriminate Hraise].
  exists c. injection Hraise as <-. split; [reflexivity |]. split; [reflexivity |].
  exact Hobj.
Qed.

Lemma failed_load_leaves_path_witness :
  let env := broken_env (String.eqb demo_path) in
  exists c,
    first_failure (raises env) (calls empty_world) (bind_calls demo_path) = Some c /\
    VLCError (MediaNew demo_path) = VLCError c /\
    (load env demo_path (empty_world, fresh_window)).1.2
    = match first_failure (raises env) (calls empty_world) (create_calls demo_path) with
      | Some _ => set_current_video_path demo_path fresh_window
      | None => set_media (Some (loaded_media demo_path))
                  (set_current_video_path demo_path fresh_window)
      end.
Proof.
  apply (failed_load_leaves_path (broken_env (String.eqb demo_path)) empty_world
           fresh_window demo_path (VLCError (MediaNew demo_path))); reflexivity.
Defined.

(** ** The settings file, read and written *)

(** X16 - whenever [load_config] returns, the dictionary it returns has
    the four default keys and, beyond them, exactly the keys of the file;
    reading it, writing it back and reading again changes nothing.  It
    raises only for a file that is out of reach. *)
Theorem load_config_keys_and_fixpoint (f : ConfigFile) :
  match load_config f with
  | Ret cfg =>
      dom cfg
      = dom DEFAULT_CONFIG ∪ match f with
                              | Present (Parsed (JObject c)) => dom c
                              | _ => ∅
                              end /\
      load_config (Present (Parsed (JObject cfg))) = Ret cfg
  | Raise _ => f = Inaccessible
  end.
Proof.
  destruct (load_config f) as [cfg | e] eqn:Hload.
  - split.
    + destruct f as [| [| | [c |]] |]; simpl in Hload; inversion Hload; subst;
        first [ rewrite dom_union_L; apply (comm_L (∪))
              | rewrite (right_id_L ∅ (∪)); reflexivity ].
    + rewrite load_config_file. f_equal.
      apply (load_config_absorbs_defaults f cfg Hload).
  - destruct f as [| [| | [c |]] |]; simpl in Hload;
      first [discriminate Hload | reflexivity].
Qed.




(** ** The default video across a restart *)

Lemma first_failure_none (raises : list EngineCall -> EngineCall -> bool)
    (cs h : list EngineCall) :
  (forall h c, raises h c = false) -> first_failure raises h cs = None.
Proof.
  intros Hok. revert h. induction cs as [| c cs IH]; intros h; simpl;
    [reflexivity |].
  rewrite Hok. apply IH.
Qed.

Lemma load_accepted (env : Env) (path : string) (w : World) (s : WallpaperWindow) :
  (forall h c, raises env h c = false) ->
  path_exists env path = Ret true ->
  (load env path (w, s)).2 = Ret tt /\
  (load env path (w, s)).1.2
  = set_media (Some (loaded_media path)) (set_current_video_path path s).
Proof.
  intros Hok Hex. split.
  - rewrite load_outcome, Hex, first_failure_none by exact Hok. reflexivity.
  - pose proof (run_op_object env (OLoad path) w s) as Hobj.
    unfold object_after in Hobj.
    rewrite Hex, first_failure_none in Hobj by exact Hok. exact Hobj.
Qed.

Lemma play_accepted (env : Env) (w : World) (s : WallpaperWindow) :
  (forall h c, raises env h c = false) ->
  media s <> None ->
  (play env (w, s)).1.2 = set_flags true false s.
Proof.
  intros Hok Hbound. pose proof (run_op_object env OPlay w s) as Hobj.
  unfold object_after in Hobj. rewrite Hok in Hobj.
  destruct (media s); [exact Hobj | congruence].
Qed.

(** Case analysis on the next [load] and [play] on an engine that accepts
    every call. *)
Ltac run_accepted env Hok Hex :=
  repeat match goal with
    | |- context [load env ?q ?x] =>
        let H1 := fresh "Hret" in
        let H2 := fresh "Hobj" in
        destruct (load_accepted env q x.1 x.2 Hok Hex) as [H1 H2];
        cbn [fst snd] in H1, H2;
        destruct (load env q x) as [[? ?] ?];
        cbn [fst snd] in H1, H2; subst; cbn [fst snd]
    | |- context [play env ?x] =>
        let H1 := fresh "Hret" in
        let H2 := fresh "Hobj" in
        pose proof (play_returns env x) as H1;
        assert (H2 : (play env x).1.2 = set_flags true false x.2)
          by (apply (play_accepted env x.1 x.2 Hok); discriminate);
        cbn [fst snd] in H1, H2;
        destruct (play env x) as [[? ?] ?];
        cbn [fst snd] in H1, H2; subst; cbn [fst snd]
    end.

Lemma on_load_accepted (env : Env) (path : string) (w : World) (p : ControlPanel) :
  (forall h c, raises env h c = false) ->
  path_exists env path = Ret true ->
  String.eqb path "" = false ->
  wallpaper (on_load env path (w, p)).1.2
  = set_flags true false
      (set_media (Some (loaded_media path)) (set_current_video_path path (wallpaper p))).
Proof.
  intros Hok Hex Hpath. unfold on_load. rewrite Hpath. run_panel.
  run_accepted env Hok Hex. reflexivity.
Qed.

Lemma startup_accepts_default (env : Env) (path : string) (w : World)
    (p : ControlPanel) :
  (forall h c, raises env h c = false) ->
  path_exists env path = Ret true ->
  String.eqb path "" = false ->
  dict_get (config p) "default_video" (VStr "") = VStr path ->
  (startup env (w, p)).2 = Ret tt /\
  wallpaper (startup env (w, p)).1.2
  = set_flags true false
      (set_media (Some (loaded_media path)) (set_current_video_path path (wallpaper p))) /\
  status (startup env (w, p)).1.2 = "Loaded default: " +:+ path_name env path.
Proof.
  intros Hok Hex Hpath Hd.
  unfold startup, set_and_exists, with_path. run_panel. rewrite Hd. simpl.
  rewrite Hpath, Hex. simpl.
  run_accepted env Hok Hex. repeat split; reflexivity.
Qed.

(** X18 - "Set as Default" survives a restart: on an engine that accepts
    every call and a settings file that can be written, after the user loads
    an existing video and sets it as default, the next [main] builds a panel
    whose surface has that video bound and playing and whose status names
    it. *)
Theorem default_video_survives_restart (env : Env) (w : World) (p : ControlPanel)
    (path : string) (r : float) :
  (forall h c, raises env h c = false) ->
  (forall n, write_result env n = Written) ->
  path_exists env path = Ret true ->
  path <> "" ->
  py_float env (dict_get (config p) "speed" (VNum 1%float)) = Ret r ->
  exists w' p',
    main env (run_actions env [ALoad path; ASetDefault] (w, p)).1 = (w', Ret p') /\
    current_video_path (wallpaper p') = path /\
    media (wallpaper p') = Some (loaded_media path) /\
    _was_playing (wallpaper p') = true /\
    status p' = "Loaded default: " +:+ path_name env path.
Proof.
  intros Hok Hwrite Hex Hpath Hspeed.
  apply String.eqb_neq in Hpath.
  rewrite !run_actions_cons, !run_action_handle. simpl run_actions.
  destruct (handle_summary env (ALoad path) w p) as (C1 & _ & _ & _).
  unfold settings_after in C1. simpl stored in C1. rewrite Hpath in C1.
  pose proof (on_load_accepted env path w p Hok Hex Hpath) as Hx1.
  simpl handle in *.
  destruct (on_load env path (w, p)) as [[w1 p1] o1]. cbn [fst snd] in C1, Hx1 |- *.
  destruct (handle_summary env ASetDefault w1 p1) as (C2 & D2 & _ & _).
  simpl handle in *.
  destruct (on_set_default env (w1, p1)) as [[w2 p2] o2]. cbn [fst snd] in C2, D2 |- *.
  unfold file_after, settings_after in *. simpl stored in *.
  rewrite Hx1 in C2, D2. simpl current_video_path in C2, D2.
  rewrite Hpath in C2, D2. rewrite Hwrite in D2.
  assert (Hcfg : load_config (disk w2) = Ret (config p2 ∪ DEFAULT_CONFIG)).
  { rewrite D2, C2. reflexivity. }
  set (cfg := config p2 ∪ DEFAULT_CONFIG) in *.
  assert (Hfloat : dict_get cfg "speed" (VNum 1%float)
                   = dict_get (config p) "speed" (VNum 1%float)).
  { subst cfg. rewrite C2, C1. unfold dict_get. rewrite lookup_union.
    rewrite !lookup_insert_ne by discriminate.
    destruct (config p !! "speed"); reflexivity. }
  assert (Hvideo : dict_get cfg "default_video" (VStr "") = VStr path).
  { subst cfg. rewrite C2. unfold dict_get.
    rewrite (lookup_union_Some_l _ DEFAULT_CONFIG "default_video" (VStr path));
      [reflexivity | apply lookup_insert_eq]. }
  rewrite (main_tested env w2 cfg Hcfg), first_failure_none by exact Hok.
  rewrite Hfloat, Hspeed.
  set (x := new_window (dict_get cfg "aspect_mode" (VStr "fit")) r).
  destruct (startup_accepts_default env path (log_calls init_calls w2)
              (set_speed_box_index (speed_to_index r) (new_panel x cfg))
              Hok Hex Hpath Hvideo) as (Hret & Hobj & Hstatus).
  destruct (startup env (log_calls init_calls w2,
                         set_speed_box_index (speed_to_index r) (new_panel x cfg)))
    as [[w3 p3] o3].
  cbn [fst snd] in Hret, Hobj, Hstatus. subst o3.
  exists w3, p3. split; [reflexivity |]. rewrite Hobj.
  repeat split; first [reflexivity | exact Hstatus].
Qed.

Lemma default_video_survives_restart_witness :
  let env := sound_env (String.eqb demo_path) in
  let w := empty_world in
  let p := new_panel fresh_window DEFAULT_CONFIG in
  exists w' p',
    main env (run_actions env [ALoad demo_path; ASetDefault] (w, p)).1 = (w', Ret p') /\
    current_video_path (wallpaper p') = demo_path /\
    media (wallpaper p') = Some (loaded_media demo_path) /\
    _was_playing (wallpaper p') = true /\
    status p' = "Loaded default: " +:+ path_name env demo_path.
Proof.
  apply (default_video_survives_restart (sound_env (String.eqb demo_path))
           empty_world (new_panel fresh_window DEFAULT_CONFIG) demo_path 1%float).
  - intros h c. reflexivity.
  - intros n. reflexivity.
  - reflexivity.
  - discriminate.
  - reflexivity.
Defined.

(** ** The extended window style *)

Definition WS_EX_TRANSPARENT : Z := 0x20.
Definition WS_EX_TOOLWINDOW : Z := 0x80.
Definition WS_EX_LAYERED : Z := 0x80000.
Definition WS_EX_NOACTIVATE : Z := 0x08000000.

(** [make_clickthrough], on the extended style of the window: the style is
    read with [GetWindowLongW], the four flags are or-ed in, and the result
    is written back with [SetWindowLongW]; if either call raises, the
    exception is swallowed and the style stays as it was. *)
Definition make_clickthrough (get_raises set_raises : bool) (exstyle : Z) : Z :=
  if get_raises then exstyle
  else
    let style := exstyle in
    let new_style :=
      Z.lor (Z.lor (Z.lor (Z.lor style WS_EX_TRANSPARENT) WS_EX_TOOLWINDOW)
               WS_EX_LAYERED) WS_EX_NOACTIVATE in
    if set_raises then exstyle else new_style.

Lemma testbit_flag (k n : Z) : (0 <= k)%Z -> Z.testbit (2 ^ k) n = (n =? k)%Z.
Proof. intros Hk. rewrite Z.pow2_bits_eqb by exact Hk. apply Z.eqb_sym. Qed.

(** X19 - [make_clickthrough] sets bits 5, 7, 19 and 27 of the extended
    window style (transparent, tool window, layered, no-activate) and leaves
    every other bit as it was; applying it again changes nothing; and when
    reading or writing the style fails the style is unchanged. *)
Theorem clickthrough_sets_four_bits (exstyle n : Z) (get_raises set_raises : bool) :
  Z.testbit (make_clickthrough false false exstyle) n
  = Z.testbit exstyle n || (n =? 5)%Z || (n =? 7)%Z || (n =? 19)%Z || (n =? 27)%Z /\
  make_clickthrough false false (make_clickthrough false false exstyle)
  = make_clickthrough false false exstyle /\
  make_clickthrough true set_raises exstyle = exstyle /\
  make_clickthrough get_raises true exstyle = exstyle.
Proof.
  assert (Hbits : forall s m,
             Z.testbit (make_clickthrough false false s) m
             = Z.testbit s m || (m =? 5)%Z || (m =? 7)%Z || (m =? 19)%Z || (m =? 27)%Z).
  { intros s m. unfold make_clickthrough. cbv zeta. simpl.
    rewrite !Z.lor_spec.
    change WS_EX_TRANSPARENT with (2 ^ 5)%Z.
    change WS_EX_TOOLWINDOW with (2 ^ 7)%Z.
    change WS_EX_LAYERED with (2 ^ 19)%Z.
    change WS_EX_NOACTIVATE with (2 ^ 27)%Z.
    rewrite !testbit_flag by lia. reflexivity. }
  split; [apply Hbits |]. split; [| split].
  - apply Z.bits_inj'. intros m _. rewrite !Hbits.
    destruct (Z.testbit exstyle m), (m =? 5)%Z, (m =? 7)%Z, (m =? 19)%Z, (m =? 27)%Z;
      reflexivity.
  - reflexivity.
  - unfold make_clickthrough. destruct get_raises; reflexivity.
Qed.

(** ** Setting the rate *)

(** X20 - [set_speed] sends the rate to the engine on every call: unlike
    [load] and [play] it has no test against 1.0 and no test for a bound
    media, so each call issues exactly one [set_rate] with the given rate,
    and a second call with the same rate leaves the object as the first
    left it. *)
Theorem set_speed_always_sends_rate (env : Env) (w : World) (s : WallpaperWindow)
    (r : float) :
  calls (set_speed env r (w, s)).1.1 = calls w ++ [SetRate r] /\
  calls (set_speed env r (set_speed env r (w, s)).1).1.1
  = calls w ++ [SetRate r; SetRate r] /\
  (set_speed env r (set_speed env r (w, s)).1).1.2 = (set_speed env r (w, s)).1.2.
Proof.
  unfold set_speed. run_monad.
  split_ifs; rewrite <- ?app_assoc; repeat split; reflexivity.
Qed.
